(** * Pynguin: the statistics collector and the assertion model

    A shallow embedding of

    - [pynguin/utils/statistics/searchstatistics.py]: the [SearchStatistics]
      collector (output-variable routing, name resolution, the write path);
    - [pynguin/assertion/complexassertion.py]: [ComplexAssertion] and, with
      it, the visitor dispatch and the cloning of assertions.

    Python objects are records; a dictionary that is read and written by
    key is a [gmap], a dictionary that is iterated is an association list in
    insertion order; methods that mutate [self], log or raise are
    computations in a small state-and-exception monad.  The classes that the
    two files import and that are not among the sources at hand are
    interfaces ([TestCaseModule], [SequenceFactoryModule]): what is proved
    holds for every implementation of them. *)

From stdpp Require Import base option list strings pretty gmap fin_maps.
From Stdlib Require Import Ascii String ZArith QArith.

Open Scope Z_scope.

(** ** Python strings

    A [str] is modelled as a [string] whose characters are the code points
    below 256. *)

Module PyStr.

(** [str.isspace] on one character, for the code points below 256:
    TAB, LF, VT, FF, CR, FS, GS, RS, US, SPACE, NEL and NBSP. *)
Definition is_space (c : ascii) : bool :=
  let n := nat_of_ascii c in
  ((9 <=? n) && (n <=? 13) || (28 <=? n) && (n <=? 32)
   || (n =? 133) || (n =? 160))%nat.

(** [s.lstrip()] *)
Fixpoint lstrip (s : string) : string :=
  match s with
  | String c r => if is_space c then lstrip r else s
  | EmptyString => EmptyString
  end.

(** [s.rstrip()] *)
Fixpoint rstrip (s : string) : string :=
  match s with
  | String c r =>
      match rstrip r with
      | EmptyString => if is_space c then EmptyString else String c EmptyString
      | r' => String c r'
      end
  | EmptyString => EmptyString
  end.

(** [s.strip()] *)
Definition strip (s : string) : string := rstrip (lstrip s).

(** [s.split(sep)] for a one-character separator: [k] occurrences of the
    separator give [k + 1] pieces, empty ones included. *)
Fixpoint split (sep : ascii) (s : string) : list string :=
  match s with
  | EmptyString => [EmptyString]
  | String c r =>
      if Ascii.eqb c sep then EmptyString :: split sep r
      else match split sep r with
           | piece :: pieces => String c piece :: pieces
           | [] => [String c EmptyString]
           end
  end.

(** [sep.join(pieces)] *)
Fixpoint join (sep : ascii) (pieces : list string) : string :=
  match pieces with
  | [] => EmptyString
  | [piece] => piece
  | piece :: rest => piece +:+ String sep (join sep rest)
  end.

(** Every character of [s] satisfies [p]. *)
Fixpoint all_chars (p : ascii -> bool) (s : string) : bool :=
  match s with
  | EmptyString => true
  | String c r => p c && all_chars p r
  end.

(** The first and the last character of a string, if any. *)
Definition first_char (s : string) : option ascii :=
  match s with String c _ => Some c | EmptyString => None end.

Fixpoint last_char (s : string) : option ascii :=
  match s with
  | EmptyString => None
  | String c EmptyString => Some c
  | String _ r => last_char r
  end.

End PyStr.

(** ** Python values

    The values that travel through the collector and the assertions: [None],
    booleans, integers, floating-point numbers and strings.  Floating-point
    numbers are only stored and copied, never computed with; they are
    represented by rationals. *)

Inductive Value : Type :=
| VNone
| VBool (b : bool)
| VInt (z : Z)
| VFloat (q : Q)
| VStr (s : string).

(** ** The assertion model *)

(** [pynguin.testcase]: test cases and variable references are not part of
    the sources at hand; [reference_clone vr tc k] stands for
    [vr.clone(tc, k)].  A variable reference is an ordinary object and hence
    truthy: [if self._source] tests for [None]. *)
Class TestCaseModule : Type := {
  TestCase : Type;
  VariableReference : Type;
  reference_clone : VariableReference -> TestCase -> Z -> VariableReference;
}.

Module Assertion.
Section Model.
Context {testcase : TestCaseModule}.

(** The three variants of [ass.Assertion].  [ComplexAssertion] is the
    class of [complexassertion.py]; it inherits [source] and [value] from
    the base class. *)
Inductive Assertion : Type :=
| PrimitiveAssertion (source : option VariableReference) (value : Value)
| FieldAssertion (source : option VariableReference) (value : Value)
    (field : string) (owners : option (list string))
| ComplexAssertion (source : option VariableReference) (value : Value).

Definition source (a : Assertion) : option VariableReference :=
  match a with
  | PrimitiveAssertion s _ | FieldAssertion s _ _ _ | ComplexAssertion s _ => s
  end.

Definition value (a : Assertion) : Value :=
  match a with
  | PrimitiveAssertion _ v | FieldAssertion _ v _ _ | ComplexAssertion _ v => v
  end.

Definition field (a : Assertion) : option string :=
  match a with FieldAssertion _ _ f _ => Some f | _ => None end.

Definition owners (a : Assertion) : option (list string) :=
  match a with FieldAssertion _ _ _ o => o | _ => None end.

Inductive Variant : Type := Primitive | Field | Complex.

Definition variant_of (a : Assertion) : Variant :=
  match a with
  | PrimitiveAssertion _ _ => Primitive
  | FieldAssertion _ _ _ _ => Field
  | ComplexAssertion _ _ => Complex
  end.

(** [self._source.clone(new_test_case, offset) if self._source else None] *)
Definition clone_source (s : option VariableReference)
    (new_test_case : TestCase) (offset : Z) : option VariableReference :=
  match s with
  | Some vr => Some (reference_clone vr new_test_case offset)
  | None => None
  end.

(** Modelled from the spec: [PrimitiveAssertion.clone], whose class is not
    among the sources: the source is cloned into the target test case at
    the offset when present, the value is copied. *)
Definition primitive_clone (s : option VariableReference) (v : Value)
    (new_test_case : TestCase) (offset : Z) : Assertion :=
  PrimitiveAssertion (clone_source s new_test_case offset) v.

(** Modelled from the spec: [FieldAssertion.clone], whose class is not
    among the sources (its test [test_clone] is): as above, and field and
    owners are copied. *)
Definition field_clone (s : option VariableReference) (v : Value)
    (f : string) (o : option (list string))
    (new_test_case : TestCase) (offset : Z) : Assertion :=
  FieldAssertion (clone_source s new_test_case offset) v f o.

(** [a.clone(new_test_case, offset)]; the [ComplexAssertion] case is
    [ComplexAssertion.clone]. *)
Definition clone (a : Assertion) (new_test_case : TestCase) (offset : Z)
  : Assertion :=
  match a with
  | ComplexAssertion s v =>
      ComplexAssertion (clone_source s new_test_case offset) v
  | FieldAssertion s v f o => field_clone s v f o new_test_case offset
  | PrimitiveAssertion s v => primitive_clone s v new_test_case offset
  end.

(** [av.AssertionVisitor]: one method per variant, each acting on the
    visitor's own state [S]. *)
Record AssertionVisitor (S : Type) : Type := {
  visit_primitive_assertion : Assertion -> S -> S;
  visit_field_assertion : Assertion -> S -> S;
  visit_complex_assertion : Assertion -> S -> S;
}.
Arguments visit_primitive_assertion {S}.
Arguments visit_field_assertion {S}.
Arguments visit_complex_assertion {S}.

(** [a.accept(visitor)]; the [ComplexAssertion] case is
    [ComplexAssertion.accept].  Modelled from the spec: the cases of the
    other two variants, whose classes are not among the sources
    ([test_accept] covers [FieldAssertion]). *)
Definition accept {S : Type} (a : Assertion) (visitor : AssertionVisitor S)
  : S -> S :=
  match a with
  | ComplexAssertion _ _ => visit_complex_assertion visitor a
  | FieldAssertion _ _ _ _ => visit_field_assertion visitor a
  | PrimitiveAssertion _ _ => visit_primitive_assertion visitor a
  end.

(** A visitor that only records which of its methods are called, and with
    which argument (the [MagicMock] of the tests). *)
Inductive VisitorCall : Type :=
| CallVisitPrimitive (a : Assertion)
| CallVisitField (a : Assertion)
| CallVisitComplex (a : Assertion).

Definition recording_visitor : AssertionVisitor (list VisitorCall) := {|
  visit_primitive_assertion a calls := calls ++ [CallVisitPrimitive a];
  visit_field_assertion a calls := calls ++ [CallVisitField a];
  visit_complex_assertion a calls := calls ++ [CallVisitComplex a];
|}.

(** The one method of [visitor] that belongs to the variant of [a]. *)
Definition method_of_variant {S : Type} (visitor : AssertionVisitor S)
    (a : Assertion) : Assertion -> S -> S :=
  match a with
  | PrimitiveAssertion _ _ => visit_primitive_assertion visitor
  | FieldAssertion _ _ _ _ => visit_field_assertion visitor
  | ComplexAssertion _ _ => visit_complex_assertion visitor
  end.

Definition call_of_variant (a : Assertion) : VisitorCall :=
  match a with
  | PrimitiveAssertion _ _ => CallVisitPrimitive a
  | FieldAssertion _ _ _ _ => CallVisitField a
  | ComplexAssertion _ _ => CallVisitComplex a
  end.

End Model.
Arguments visit_primitive_assertion {testcase S}.
Arguments visit_field_assertion {testcase S}.
Arguments visit_complex_assertion {testcase S}.
End Assertion.

(** ** The statistics collector *)

(** [RuntimeVariable]: the members of the enumeration that the collector
    mentions; [name] is the [.name] of a member, its identifier. *)
Module RuntimeVariable.
Inductive t : Type :=
| Random_Seed | Length | Size | Coverage | Fitness
| CoverageTimeline | SizeTimeline | LengthTimeline | TotalExceptionsTimeline
| total_time.

Definition name (v : t) : string :=
  match v with
  | Random_Seed => "Random_Seed"
  | Length => "Length"
  | Size => "Size"
  | Coverage => "Coverage"
  | Fitness => "Fitness"
  | CoverageTimeline => "CoverageTimeline"
  | SizeTimeline => "SizeTimeline"
  | LengthTimeline => "LengthTimeline"
  | TotalExceptionsTimeline => "TotalExceptionsTimeline"
  | total_time => "total_time"
  end.
End RuntimeVariable.

(** [OutputVariable(name=..., value=...)] *)
Record OutputVariable : Type := { name : string; value : Value }.

(** The part of a [tsc.TestSuiteChromosome] that the factories read. *)
Record TestSuiteChromosome : Type := {
  total_length_of_test_cases : Z;
  size : Z;
  coverage : Q;
  fitness : Q;
}.

(** A [chrom.Chromosome] is a test suite chromosome or something else. *)
Inductive Chromosome : Type :=
| TestSuite (individual : TestSuiteChromosome)
| OtherChromosome.

(** [config.INSTANCE], as far as the collector reads it. *)
Inductive StatisticsBackend : Type := NONE | CONSOLE | CSV.

Record Configuration : Type := {
  seed : Value;
  statistics_backend : StatisticsBackend;
  output_variables : string;
}.

(** The backend objects; what [write_data] does with its argument is
    outside the collector, the calls are recorded. *)
Inductive AbstractStatisticsBackend : Type :=
| ConsoleStatisticsBackend
| CSVStatisticsBackend.

Inductive LogLevel : Type := DEBUG | INFO | WARNING | ERROR.
Record LogRecord : Type := { level : LogLevel; message : string }.

Inductive Exception : Type := AssertionError.

(** A [dict] that is iterated: an association list in insertion order. *)
Module Dict.
Section Dict.
Context {V : Type}.

Fixpoint get (k : string) (d : list (string * V)) : option V :=
  match d with
  | [] => None
  | (k', v) :: rest => if String.eqb k k' then Some v else get k rest
  end.

(** [d[k] = v]: replaces the value in place, or appends a new item. *)
Fixpoint set (k : string) (v : V) (d : list (string * V))
  : list (string * V) :=
  match d with
  | [] => [(k, v)]
  | (k', v') :: rest =>
      if String.eqb k k' then (k', v) :: rest else (k', v') :: set k v rest
  end.

Definition keys (d : list (string * V)) : list string := map fst d.
Definition values (d : list (string * V)) : list V := map snd d.
End Dict.
End Dict.

(** The four [ChromosomeOutputVariableFactory] subclasses nested in
    [SearchStatistics]. *)
Inductive ChromosomeOutputVariableFactory : Type :=
| _ChromosomeLengthOutputVariableFactory
| _ChromosomeSizeOutputVariableFactory
| _ChromosomeCoverageOutputVariableFactory
| _ChromosomeFitnessOutputVariableFactory.

(** The runtime variable each subclass hands to [super().__init__]. *)
Definition variable (f : ChromosomeOutputVariableFactory) : RuntimeVariable.t :=
  match f with
  | _ChromosomeLengthOutputVariableFactory => RuntimeVariable.Length
  | _ChromosomeSizeOutputVariableFactory => RuntimeVariable.Size
  | _ChromosomeCoverageOutputVariableFactory => RuntimeVariable.Coverage
  | _ChromosomeFitnessOutputVariableFactory => RuntimeVariable.Fitness
  end.

Definition get_data (f : ChromosomeOutputVariableFactory)
    (individual : TestSuiteChromosome) : Value :=
  match f with
  | _ChromosomeLengthOutputVariableFactory =>
      VInt (total_length_of_test_cases individual)
  | _ChromosomeSizeOutputVariableFactory => VInt (size individual)
  | _ChromosomeCoverageOutputVariableFactory => VFloat (coverage individual)
  | _ChromosomeFitnessOutputVariableFactory => VFloat (fitness individual)
  end.

(** Modelled from the spec: [ChromosomeOutputVariableFactory.get_variable],
    whose base class is not among the sources: the value computed by
    [get_data], under the name of the factory's variable. *)
Definition get_variable (f : ChromosomeOutputVariableFactory)
    (individual : TestSuiteChromosome) : OutputVariable :=
  {| name := RuntimeVariable.name (variable f);
     value := get_data f individual |}.

(** [SequenceOutputVariableFactory] and [DirectSequenceOutputVariableFactory]
    of [outputvariablefactory.py] are not among the sources.  What their
    objects store and what their methods do with it is left open:
    [sequence] is the state of such an object, and

    - [sequence_init v] is [SequenceOutputVariableFactory.__init__(v)],
    - [sequence_update x q] is [update(individual)], where [x] is what
      [self.get_value(individual)] returns,
    - [sequence_get_output_variables q] is [get_output_variables()],
    - [direct_get_integer v] is
      [DirectSequenceOutputVariableFactory.get_integer(v)],
    - [direct_set_value x q] is [set_value(x)] and [direct_get_value q] is
      [get_value(individual)] of the direct factory. *)
Class SequenceFactoryModule : Type := {
  sequence : Type;
  sequence_init : RuntimeVariable.t -> sequence;
  sequence_update : Value -> sequence -> sequence;
  sequence_get_output_variables : sequence -> list OutputVariable;
  direct_get_integer : RuntimeVariable.t -> sequence;
  direct_get_value : sequence -> Value;
  direct_set_value : Value -> sequence -> sequence;
}.

(** The classes of the sequence factories that the collector registers: the
    three subclasses nested in [SearchStatistics], and the direct one. *)
Inductive SequenceClass : Type :=
| _CoverageSequenceOutputVariableFactory
| _SizeSequenceOutputVariableFactory
| _LengthSequenceOutputVariableFactory
| DirectSequenceOutputVariableFactory.

(** A method call either returns a value or raises. *)
Inductive Result (A : Type) : Type :=
| Return (a : A)
| Raise (e : Exception).
Arguments Return {A}.
Arguments Raise {A}.

Section Collector.
Context {factories : SequenceFactoryModule}.

(** A sequence factory object: its class and its state. *)
Record SequenceOutputVariableFactory : Type := {
  class_of : SequenceClass;
  state_of : sequence;
}.

(** [isinstance(var, DirectSequenceOutputVariableFactory)] *)
Definition isinstance_direct (var : SequenceOutputVariableFactory) : bool :=
  match class_of var with
  | DirectSequenceOutputVariableFactory => true
  | _ => false
  end.

(** [get_value], as the nested subclasses override it. *)
Definition get_value (var : SequenceOutputVariableFactory)
    (individual : TestSuiteChromosome) : Value :=
  match class_of var with
  | _CoverageSequenceOutputVariableFactory => VFloat (coverage individual)
  | _SizeSequenceOutputVariableFactory => VInt (size individual)
  | _LengthSequenceOutputVariableFactory =>
      VInt (total_length_of_test_cases individual)
  | DirectSequenceOutputVariableFactory => direct_get_value (state_of var)
  end.

(** [var.update(individual)].  Modelled from the spec: [update], a method of
    the base class, records the current value of the factory, which is what
    [get_value] returns for the individual; how it is recorded is
    [sequence_update]. *)
Definition update (individual : TestSuiteChromosome)
    (var : SequenceOutputVariableFactory) : SequenceOutputVariableFactory :=
  {| class_of := class_of var;
     state_of := sequence_update (get_value var individual) (state_of var) |}.

(** [var.set_value(x)], a method of the direct factory. *)
Definition set_value (x : Value) (var : SequenceOutputVariableFactory)
  : SequenceOutputVariableFactory :=
  {| class_of := class_of var;
     state_of := direct_set_value x (state_of var) |}.

(** [var.get_output_variables()], a method of the base class. *)
Definition get_output_variables (var : SequenceOutputVariableFactory)
  : list OutputVariable :=
  sequence_get_output_variables (state_of var).

(** The attributes of a [SearchStatistics] object. *)
Record SearchStatistics : Type := {
  _backend : option AbstractStatisticsBackend;
  _output_variables : gmap string OutputVariable;
  _variable_factories : list (string * ChromosomeOutputVariableFactory);
  _sequence_output_variable_factories :
    list (string * SequenceOutputVariableFactory);
  _start_time : Z;
  _best_individual : option TestSuiteChromosome;
}.

(** What a method can touch: the collector itself, the records handed to
    the logger, and the mappings handed to the backend's [write_data]. *)
Record World : Type := {
  self : SearchStatistics;
  log : list LogRecord;
  written : list (gmap string OutputVariable);
}.

(** A method is a computation that leaves a world behind, whether it
    returns or raises. *)
Definition M (A : Type) : Type := World -> Result A * World.

Definition ret {A} (a : A) : M A := fun w => (Return a, w).

Definition bind {A B} (m : M A) (k : A -> M B) : M B :=
  fun w =>
    match m w with
    | (Return a, w') => k a w'
    | (Raise e, w') => (Raise e, w')
    end.

Definition raise {A} (e : Exception) : M A := fun w => (Raise e, w).

Definition get_self : M SearchStatistics := fun w => (Return (self w), w).

Definition put_self (s : SearchStatistics) : M unit :=
  fun w => (Return tt, {| self := s; log := log w; written := written w |}).

Definition emit (l : LogLevel) (msg : string) : M unit :=
  fun w =>
    (Return tt,
     {| self := self w;
        log := log w ++ [{| level := l; message := msg |}];
        written := written w |}).

(** [backend.write_data(data)] *)
Definition write_data (backend : AbstractStatisticsBackend)
    (data : gmap string OutputVariable) : M unit :=
  fun w =>
    (Return tt,
     {| self := self w; log := log w; written := written w ++ [data] |}).

#[local] Instance M_ret : MRet M := @ret.
#[local] Instance M_bind : MBind M := fun A B k m => bind m k.

(** [for x in xs: body(x)] *)
Fixpoint for_each {A} (xs : list A) (body : A -> M unit) : M unit :=
  match xs with
  | [] => ret tt
  | x :: rest => body x ;; for_each rest body
  end.

(** Assignments to single attributes of [self]. *)
Definition with_output_variables (s : SearchStatistics)
    (m : gmap string OutputVariable) : SearchStatistics :=
  {| _backend := _backend s;
     _output_variables := m;
     _variable_factories := _variable_factories s;
     _sequence_output_variable_factories :=
       _sequence_output_variable_factories s;
     _start_time := _start_time s;
     _best_individual := _best_individual s |}.

Definition with_variable_factories (s : SearchStatistics)
    (d : list (string * ChromosomeOutputVariableFactory))
  : SearchStatistics :=
  {| _backend := _backend s;
     _output_variables := _output_variables s;
     _variable_factories := d;
     _sequence_output_variable_factories :=
       _sequence_output_variable_factories s;
     _start_time := _start_time s;
     _best_individual := _best_individual s |}.

Definition with_sequence_output_variable_factories (s : SearchStatistics)
    (d : list (string * SequenceOutputVariableFactory)) : SearchStatistics :=
  {| _backend := _backend s;
     _output_variables := _output_variables s;
     _variable_factories := _variable_factories s;
     _sequence_output_variable_factories := d;
     _start_time := _start_time s;
     _best_individual := _best_individual s |}.

Definition with_start_time (s : SearchStatistics) (t : Z)
  : SearchStatistics :=
  {| _backend := _backend s;
     _output_variables := _output_variables s;
     _variable_factories := _variable_factories s;
     _sequence_output_variable_factories :=
       _sequence_output_variable_factories s;
     _start_time := t;
     _best_individual := _best_individual s |}.

Definition with_best_individual (s : SearchStatistics)
    (b : option TestSuiteChromosome) : SearchStatistics :=
  {| _backend := _backend s;
     _output_variables := _output_variables s;
     _variable_factories := _variable_factories s;
     _sequence_output_variable_factories :=
       _sequence_output_variable_factories s;
     _start_time := _start_time s;
     _best_individual := b |}.

(** [SearchStatistics._initialise_backend] *)
Definition _initialise_backend (cfg : Configuration)
  : option AbstractStatisticsBackend :=
  match statistics_backend cfg with
  | CONSOLE => Some ConsoleStatisticsBackend
  | CSV => Some CSVStatisticsBackend
  | NONE => None
  end.

(** [SearchStatistics._init_factories] *)
Definition _init_factories : M unit :=
  s ← get_self;
  put_self (with_variable_factories s
    (Dict.set (RuntimeVariable.name RuntimeVariable.Length)
       _ChromosomeLengthOutputVariableFactory (_variable_factories s)));;
  s ← get_self;
  put_self (with_variable_factories s
    (Dict.set (RuntimeVariable.name RuntimeVariable.Size)
       _ChromosomeSizeOutputVariableFactory (_variable_factories s)));;
  s ← get_self;
  put_self (with_variable_factories s
    (Dict.set (RuntimeVariable.name RuntimeVariable.Coverage)
       _ChromosomeCoverageOutputVariableFactory (_variable_factories s)));;
  s ← get_self;
  put_self (with_variable_factories s
    (Dict.set (RuntimeVariable.name RuntimeVariable.Fitness)
       _ChromosomeFitnessOutputVariableFactory (_variable_factories s))).

(** The constructors of the nested sequence factories call
    [super().__init__] with their runtime variable. *)
Definition new_sequence_factory (c : SequenceClass) (v : RuntimeVariable.t)
  : SequenceOutputVariableFactory :=
  {| class_of := c;
     state_of :=
       match c with
       | DirectSequenceOutputVariableFactory => direct_get_integer v
       | _ => sequence_init v
       end |}.

(** [SearchStatistics._fill_sequence_output_variable_factories] *)
Definition _fill_sequence_output_variable_factories : M unit :=
  s ← get_self;
  put_self (with_sequence_output_variable_factories s
    (Dict.set (RuntimeVariable.name RuntimeVariable.CoverageTimeline)
       (new_sequence_factory _CoverageSequenceOutputVariableFactory
          RuntimeVariable.CoverageTimeline)
       (_sequence_output_variable_factories s)));;
  s ← get_self;
  put_self (with_sequence_output_variable_factories s
    (Dict.set (RuntimeVariable.name RuntimeVariable.SizeTimeline)
       (new_sequence_factory _SizeSequenceOutputVariableFactory
          RuntimeVariable.SizeTimeline)
       (_sequence_output_variable_factories s)));;
  s ← get_self;
  put_self (with_sequence_output_variable_factories s
    (Dict.set (RuntimeVariable.name RuntimeVariable.LengthTimeline)
       (new_sequence_factory _LengthSequenceOutputVariableFactory
          RuntimeVariable.LengthTimeline)
       (_sequence_output_variable_factories s)));;
  s ← get_self;
  put_self (with_sequence_output_variable_factories s
    (Dict.set (RuntimeVariable.name RuntimeVariable.TotalExceptionsTimeline)
       (new_sequence_factory DirectSequenceOutputVariableFactory
          RuntimeVariable.TotalExceptionsTimeline)
       (_sequence_output_variable_factories s))).

(** [SearchStatistics.set_output_variable].  The [assert] statement is
    executed (the interpreter does not run with [-O]): a registered factory
    that is not a direct one makes the call raise [AssertionError], before
    anything is changed. *)
Definition set_output_variable (variable : OutputVariable) : M unit :=
  s ← get_self;
  match Dict.get (name variable) (_sequence_output_variable_factories s) with
  | Some var =>
      if isinstance_direct var then
        put_self (with_sequence_output_variable_factories s
          (Dict.set (name variable) (set_value (value variable) var)
             (_sequence_output_variable_factories s)))
      else raise AssertionError
  | None =>
      put_self (with_output_variables s
        (<[name variable := variable]> (_output_variables s)))
  end.

(** [SearchStatistics.set_output_variable_for_runtime_variable] *)
Definition set_output_variable_for_runtime_variable
    (variable : RuntimeVariable.t) (value : Value) : M unit :=
  set_output_variable
    {| name := RuntimeVariable.name variable; value := value |}.

(** [SearchStatistics.current_individual] *)
Definition current_individual (individual : Chromosome) : M unit :=
  s ← get_self;
  match _backend s with
  | None => ret tt
  | Some _ =>
      match individual with
      | OtherChromosome =>
          emit WARNING "SearchStatistics expected a TestSuiteChromosome"
      | TestSuite individual =>
          emit DEBUG "Received individual";;
          for_each (Dict.values (_variable_factories s))
            (fun variable_factory =>
               set_output_variable
                 (get_variable variable_factory individual));;
          s ← get_self;
          put_self (with_sequence_output_variable_factories s
            (map (fun item => (item.1, update individual item.2))
               (_sequence_output_variable_factories s)))
      end
  end.

(** [SearchStatistics._get_all_output_variable_names] *)
Definition _get_all_output_variable_names : list string :=
  ["TARGET_CLASS"; "criterion";
   RuntimeVariable.name RuntimeVariable.Coverage].

(** [SearchStatistics._get_output_variable_names] *)
Definition _get_output_variable_names (cfg : Configuration) : list string :=
  let variable_names : list string := [] in
  match output_variables cfg with
  | EmptyString => variable_names ++ _get_all_output_variable_names
  | _ =>
      fold_left (fun variable_names entry =>
                   variable_names ++ [PyStr.strip entry])
        (PyStr.split ","%char (output_variables cfg)) variable_names
  end.

(** One round of the loop of [_get_output_variables] leaves the mapping
    built so far, or leaves the function with the mapping to return. *)
Inductive LoopExit : Type :=
| Next (variables : gmap string OutputVariable)
| Leave (result : gmap string OutputVariable).

(** The body of the loop of [SearchStatistics._get_output_variables]. *)
Definition _get_output_variables_body (individual : TestSuiteChromosome)
    (skip_missing : bool) (variables : gmap string OutputVariable)
    (variable_name : string) : M LoopExit :=
  s ← get_self;
  match _output_variables s !! variable_name with
  | Some direct => ret (Next (<[variable_name := direct]> variables))
  | None =>
      match Dict.get variable_name (_variable_factories s) with
      | Some factory =>
          ret (Next (<[variable_name := get_variable factory individual]>
                       variables))
      | None =>
          match Dict.get variable_name
                  (_sequence_output_variable_factories s) with
          | Some sequence_factory =>
              ret (Next (fold_left (fun variables var =>
                                      <[name var := var]> variables)
                           (get_output_variables sequence_factory)
                           variables))
          | None =>
              if skip_missing then
                ret (Next (<[variable_name :=
                               {| name := variable_name; value := VStr "" |}]>
                             variables))
              else
                emit ERROR ("No obtained value for output variable "
                            +:+ variable_name);;
                ret (Leave ∅)
          end
      end
  end.

Fixpoint _get_output_variables_loop (individual : TestSuiteChromosome)
    (skip_missing : bool) (variable_names : list string)
    (variables : gmap string OutputVariable)
  : M (gmap string OutputVariable) :=
  match variable_names with
  | [] => ret variables
  | variable_name :: rest =>
      step ← _get_output_variables_body individual skip_missing variables
               variable_name;
      match step with
      | Next variables =>
          _get_output_variables_loop individual skip_missing rest variables
      | Leave result => ret result
      end
  end.

(** [SearchStatistics._get_output_variables] *)
Definition _get_output_variables (cfg : Configuration)
    (individual : TestSuiteChromosome) (skip_missing : bool)
  : M (gmap string OutputVariable) :=
  _get_output_variables_loop individual skip_missing
    (_get_output_variable_names cfg) ∅.

(** [SearchStatistics.write_statistics]; [now] is what [time.time_ns()]
    returns.  The best individual, when there is one, is an ordinary
    object and hence truthy. *)
Definition write_statistics (cfg : Configuration) (now : Z) : M bool :=
  emit INFO "Writing statistics";;
  s ← get_self;
  match _backend s with
  | None => ret false
  | Some backend =>
      put_self (with_output_variables s
        (<[RuntimeVariable.name RuntimeVariable.total_time :=
             {| name := RuntimeVariable.name RuntimeVariable.total_time;
                value := VInt (now - _start_time s) |}]>
           (_output_variables s)));;
      s ← get_self;
      match _best_individual s with
      | None =>
          emit ERROR
            ("No statistics has been saved because Pynguin failed to "
             +:+ "generate any test case");;
          ret false
      | Some individual =>
          output_variables ← _get_output_variables cfg individual false;
          write_data backend output_variables;;
          ret true
      end
  end.

(** [SearchStatistics.__init__]; [now] is what [time.time_ns()] returns.
    It runs on the object under construction, whose dictionaries are
    created empty by the first statements. *)
Definition __init__ (cfg : Configuration) (now : Z) : M unit :=
  s ← get_self;
  put_self {| _backend := _initialise_backend cfg;
              _output_variables := ∅;
              _variable_factories := [];
              _sequence_output_variable_factories := [];
              _start_time := _start_time s;
              _best_individual := _best_individual s |};;
  _init_factories;;
  set_output_variable_for_runtime_variable RuntimeVariable.Random_Seed
    (seed cfg);;
  _fill_sequence_output_variable_factories;;
  s ← get_self;
  put_self (with_start_time s now);;
  s ← get_self;
  put_self (with_best_individual s None).

End Collector.

(** Modelled from the spec: an implementation of the sequence factories of
    [outputvariablefactory.py], on which the collector is evaluated at
    concrete inputs.  A sequence factory accumulates the time series of its
    variable; [update] appends the current value to it; a value that is set
    directly becomes the current value of a direct factory; the series
    expands into one output variable per position, [CoverageTimeline_1],
    [CoverageTimeline_2], ... *)
Record TimeSeries : Type := {
  series_variable : RuntimeVariable.t;
  current : Value;
  series : list Value;
}.

(** Modelled from the spec: [get_output_variables], one output variable per
    position of the series, positions counted from 1. *)
Definition series_output_variables (q : TimeSeries) : list OutputVariable :=
  imap (fun i x =>
          {| name := RuntimeVariable.name (series_variable q)
                     +:+ "_" +:+ pretty (S i);
             value := x |})
    (series q).

(** Modelled from the spec: the methods of the sequence factories on a
    [TimeSeries]; a direct factory for integers starts with the current
    value 0. *)
Definition time_series : SequenceFactoryModule := {|
  sequence := TimeSeries;
  sequence_init v := {| series_variable := v; current := VNone; series := [] |};
  sequence_update x q :=
    {| series_variable := series_variable q;
       current := current q;
       series := series q ++ [x] |};
  sequence_get_output_variables := series_output_variables;
  direct_get_integer v :=
    {| series_variable := v; current := VInt 0; series := [] |};
  direct_get_value := current;
  direct_set_value x q :=
    {| series_variable := series_variable q;
       current := x;
       series := series q |};
|}.

(** ** The calls a client can make on a constructed collector *)

Inductive Call : Type :=
| call_current_individual (individual : Chromosome)
| call_set_output_variable (variable : OutputVariable)
| call_set_output_variable_for_runtime_variable
    (variable : RuntimeVariable.t) (value : Value)
| call_write_statistics (cfg : Configuration) (now : Z).

Section Calls.
Context {factories : SequenceFactoryModule}.

(** What a call evaluates to: [write_statistics] returns a boolean, the
    other methods return [None]. *)
Definition perform (c : Call) : M (option bool) :=
  match c with
  | call_current_individual individual =>
      fun w => match current_individual individual w with
               | (Return _, w') => (Return None, w')
               | (Raise e, w') => (Raise e, w')
               end
  | call_set_output_variable variable =>
      fun w => match set_output_variable variable w with
               | (Return _, w') => (Return None, w')
               | (Raise e, w') => (Raise e, w')
               end
  | call_set_output_variable_for_runtime_variable variable value =>
      fun w =>
        match set_output_variable_for_runtime_variable variable value w with
        | (Return _, w') => (Return None, w')
        | (Raise e, w') => (Raise e, w')
        end
  | call_write_statistics cfg now =>
      fun w => match write_statistics cfg now w with
               | (Return b, w') => (Return (Some b), w')
               | (Raise e, w') => (Raise e, w')
               end
  end.

(** A client makes its calls one after the other; a call that raises
    leaves the collector as it is at that point, and the client goes on. *)
Fixpoint run (calls : list Call) (w : World)
  : list (Result (option bool)) * World :=
  match calls with
  | [] => ([], w)
  | c :: rest =>
      let (r, w') := perform c w in
      let (rs, w'') := run rest w' in
      (r :: rs, w'')
  end.

(** The registries as [__init__] fills them: the names and the classes of
    the registered factories. *)
Definition registered (s : SearchStatistics) : Prop :=
  _variable_factories s =
    [("Length", _ChromosomeLengthOutputVariableFactory);
     ("Size", _ChromosomeSizeOutputVariableFactory);
     ("Coverage", _ChromosomeCoverageOutputVariableFactory);
     ("Fitness", _ChromosomeFitnessOutputVariableFactory)]
  /\ map (fun item => (item.1, class_of item.2))
       (_sequence_output_variable_factories s) =
    [("CoverageTimeline", _CoverageSequenceOutputVariableFactory);
     ("SizeTimeline", _SizeSequenceOutputVariableFactory);
     ("LengthTimeline", _LengthSequenceOutputVariableFactory);
     ("TotalExceptionsTimeline", DirectSequenceOutputVariableFactory)].

(** A name that none of the three sources of [_get_output_variables]
    resolves. *)
Definition unresolvable (s : SearchStatistics) (variable_name : string)
  : Prop :=
  _output_variables s !! variable_name = None
  /\ Dict.get variable_name (_variable_factories s) = None
  /\ Dict.get variable_name (_sequence_output_variable_factories s) = None.

End Calls.

(** ** The names of the requested output variables, in the spec's words *)

(** The entries of a comma-separated list. *)
Definition comma_separated_entries (s : string) : list string :=
  PyStr.split ","%char s.

(** The default set when nothing is configured, else the entries of the
    configured list with the surrounding whitespace removed, in order. *)
Definition requested_names (cfg : Configuration) : list string :=
  if decide (output_variables cfg = "") then
    ["TARGET_CLASS"; "criterion"; "Coverage"]
  else map PyStr.strip (comma_separated_entries (output_variables cfg)).

(** [t] is [e] without the whitespace around it. *)
Definition stripped_of (e t : string) : Prop :=
  exists l r,
    e = l +:+ t +:+ r
    /\ PyStr.all_chars PyStr.is_space l = true
    /\ PyStr.all_chars PyStr.is_space r = true
    /\ (PyStr.is_space <$> PyStr.first_char t) <> Some true
    /\ (PyStr.is_space <$> PyStr.last_char t) <> Some true.

(** ** The priority of the sources, in the spec's words *)

Inductive Source : Type := DirectlySet | ChromosomeFactory | SequenceFactory.

(** Directly-set scalars first, then chromosome factories, then sequence
    factories. *)
Definition priority_order : list Source :=
  [DirectlySet; ChromosomeFactory; SequenceFactory].

Section Resolution.
Context {factories : SequenceFactoryModule}.

(** The source has something under the name. *)
Definition knows (s : SearchStatistics) (variable_name : string)
    (src : Source) : bool :=
  match src with
  | DirectlySet => bool_decide (is_Some (_output_variables s !! variable_name))
  | ChromosomeFactory =>
      bool_decide (is_Some (Dict.get variable_name (_variable_factories s)))
  | SequenceFactory =>
      bool_decide
        (is_Some (Dict.get variable_name
                    (_sequence_output_variable_factories s)))
  end.

(** The source that resolves a name: the first in the priority order that
    knows it. *)
Definition resolving_source (s : SearchStatistics) (variable_name : string)
  : option Source :=
  List.find (knows s variable_name) priority_order.

(** What a source contributes for a name: the directly-set variable, the
    variable the chromosome factory derives from the individual, or one
    variable per position of the sequence, each under its own name. *)
Definition contribution (s : SearchStatistics)
    (individual : TestSuiteChromosome) (variable_name : string)
    (src : Source) : list (string * OutputVariable) :=
  match src with
  | DirectlySet =>
      match _output_variables s !! variable_name with
      | Some direct => [(variable_name, direct)]
      | None => []
      end
  | ChromosomeFactory =>
      match Dict.get variable_name (_variable_factories s) with
      | Some factory => [(variable_name, get_variable factory individual)]
      | None => []
      end
  | SequenceFactory =>
      match Dict.get variable_name (_sequence_output_variable_factories s)
      with
      | Some sequence_factory =>
          map (fun var => (name var, var))
            (get_output_variables sequence_factory)
      | None => []
      end
  end.

(** [variables[k] = v] for each item, in order. *)
Definition store_all (items : list (string * OutputVariable))
    (variables : gmap string OutputVariable) : gmap string OutputVariable :=
  fold_left (fun variables item => <[item.1 := item.2]> variables)
    items variables.

(** The world after one more record has gone to the logger. *)
Definition logging (w : World) (l : LogLevel) (msg : string) : World :=
  {| self := self w;
     log := log w ++ [{| level := l; message := msg |}];
     written := written w |}.

(** What resolution stores for a name: the contribution of the source that
    resolves it, and, for a name that no source knows, the variable of that
    name with the empty string as value. *)
Definition resolved_entries (s : SearchStatistics)
    (individual : TestSuiteChromosome) (variable_name : string)
  : list (string * OutputVariable) :=
  match resolving_source s variable_name with
  | Some src => contribution s individual variable_name src
  | None => [(variable_name, {| name := variable_name; value := VStr "" |})]
  end.

(** The mapping that resolution builds: each requested name, in the order
    of the request, stores what its resolving source contributes. *)
Definition resolve_requested (s : SearchStatistics)
    (individual : TestSuiteChromosome) (variable_names : list string)
    (variables : gmap string OutputVariable) : gmap string OutputVariable :=
  fold_left
    (fun variables variable_name =>
       store_all (resolved_entries s individual variable_name) variables)
    variable_names variables.

(** The first requested name that none of the three sources knows. *)
Definition first_unknown (s : SearchStatistics) (variable_names : list string)
  : option string :=
  List.find
    (fun variable_name =>
       match resolving_source s variable_name with
       | Some _ => false
       | None => true
       end)
    variable_names.

(** What the methods of a sequence factory can make of it: [var'] is [var]
    after some calls of [set_value] and [update]. *)
Inductive evolves (var : SequenceOutputVariableFactory)
  : SequenceOutputVariableFactory -> Prop :=
| evolves_refl : evolves var var
| evolves_set_value x var' : evolves var var' -> evolves var (set_value x var')
| evolves_update t var' : evolves var var' -> evolves var (update t var').

(** Two states of a collector with the same backend, the same chromosome
    factories, the same start time, the same best individual, and the same
    sequence factories under the same names, up to what their own methods
    have made of them. *)
Definition same_setup (s s' : SearchStatistics) : Prop :=
  _backend s' = _backend s
  /\ _variable_factories s' = _variable_factories s
  /\ _start_time s' = _start_time s
  /\ _best_individual s' = _best_individual s
  /\ Forall2 (fun item item' => item'.1 = item.1 /\ evolves item.2 item'.2)
       (_sequence_output_variable_factories s)
       (_sequence_output_variable_factories s').

(** No name of a registered sequence is a key of the flat map. *)
Definition never_scalar (s : SearchStatistics) : Prop :=
  forall k,
    k ∈ Dict.keys (_sequence_output_variable_factories s) ->
    _output_variables s !! k = None.

(** The world in which a collector is constructed: nothing logged, nothing
    written, and an object without attributes yet. *)
Definition unconstructed : World :=
  {| self := {| _backend := None;
                _output_variables := ∅;
                _variable_factories := [];
                _sequence_output_variable_factories := [];
                _start_time := 0;
                _best_individual := None |};
     log := [];
     written := [] |}.

(** [SearchStatistics()] *)
Definition constructed (cfg : Configuration) (now : Z) : World :=
  (__init__ cfg now unconstructed).2.

End Resolution.

(** Sample inputs. *)
Definition console_configuration : Configuration :=
  {| seed := VInt 42; statistics_backend := CONSOLE; output_variables := "" |}.

Definition no_backend_configuration : Configuration :=
  {| seed := VInt 42; statistics_backend := NONE; output_variables := "" |}.

Definition sample_individual : TestSuiteChromosome :=
  {| total_length_of_test_cases := 12; size := 3;
     coverage := 3 # 4; fitness := 1 # 4 |}.

(** In the implementation above every registered factory carries the
    runtime variable it is registered under. *)
Definition well_named (s : SearchStatistics (factories := time_series))
  : Prop :=
  Forall (fun item =>
            RuntimeVariable.name
              (series_variable (state_of (factories := time_series) item.2))
            = item.1)
    (_sequence_output_variable_factories s).

(** Proves a conjunction of closed equations by evaluating both sides. *)
Ltac by_evaluation :=
  unfold registered, unresolvable;
  repeat match goal with |- _ /\ _ => split end;
  vm_compute; reflexivity.

(** Refutes the membership of a string in a list of other strings. *)
Ltac absurd_member H :=
  repeat (apply elem_of_cons in H as [H|H]; [discriminate H|]);
  by apply elem_of_nil in H.

(** Unfolds the plumbing of the monad. *)
Ltac run_M :=
  unfold mbind, mret, M_bind, M_ret, bind, ret, raise, get_self, put_self,
    emit, write_data, logging in *;
  simpl in *.

(** ** More of the collector *)

Section Accessors.
Context {factories : SequenceFactoryModule}.

(** The property [SearchStatistics.output_variables] (its name here, since
    the configuration has an attribute of the same name). *)
Definition output_variables_property : M (gmap string OutputVariable) :=
  bind get_self (fun s => ret (_output_variables s)).

End Accessors.

(** The flat map after the four chromosome factories have stored their
    variables for an individual, in the order of the registry. *)
Definition reported (t : TestSuiteChromosome)
    (m : gmap string OutputVariable) : gmap string OutputVariable :=
  <["Fitness" := get_variable _ChromosomeFitnessOutputVariableFactory t]>
    (<["Coverage" := get_variable _ChromosomeCoverageOutputVariableFactory t]>
       (<["Size" := get_variable _ChromosomeSizeOutputVariableFactory t]>
          (<["Length" := get_variable _ChromosomeLengthOutputVariableFactory t]>
             m))).

(** The names under which sequence factories that are not direct ones are
    registered. *)
Definition plain_sequence_names : list string :=
  ["CoverageTimeline"; "SizeTimeline"; "LengthTimeline"].

(** The calls that set an output variable under one of these names. *)
Definition sets_plain_sequence (c : Call) : bool :=
  match c with
  | call_set_output_variable variable =>
      bool_decide (name variable ∈ plain_sequence_names)
  | call_set_output_variable_for_runtime_variable variable _ =>
      bool_decide (RuntimeVariable.name variable ∈ plain_sequence_names)
  | _ => false
  end.

(** The calls of [current_individual] and [write_statistics]. *)
Definition reports_or_writes (c : Call) : bool :=
  match c with
  | call_current_individual _ | call_write_statistics _ _ => true
  | _ => false
  end.

(** A name without a comma and without whitespace around it. *)
Definition plain_name (n : string) : Prop :=
  PyStr.all_chars (fun c => negb (Ascii.eqb c ","%char)) n = true
  /\ PyStr.strip n = n.

(** ** The calculator of the test fixtures *)

Module Calculator.

(** A call of a Python function returns or raises. *)
Inductive Outcome (A E : Type) : Type :=
| Returns (a : A)
| Raises (e : E).
Arguments Returns {A E}.
Arguments Raises {A E}.

(** The four decorated methods. *)
Inductive Method : Type := Add | Sub | Mult | Div.

Section Model.
(** What the arguments are, and what Python's operators, [str] and
    [str.upper] do with them, is Python's business: [number] stands for the
    arguments and results, [exception] for what an operator can raise. *)
Context {number exception : Type}.
Variable py_add py_sub py_mul py_truediv :
  number -> number -> Outcome number exception.
Variable py_str : number -> string.
Variable py_upper : string -> string.

(** [CalculatorResult] *)
Record CalculatorResult : Type := {
  last_op : string;
  last_result : number;
}.

(** [CalculatorResult.__repr__], which [str] falls back to. *)
Definition __repr__ (x : CalculatorResult) : string :=
  py_upper (last_op x) +:+ ": " +:+ py_str (last_result x).

(** The class attributes of [Calculator], which all its instances share:
    no method assigns an attribute of [self]. *)
Record Class : Type := {
  amount_calculation : Z;
  results : list CalculatorResult;
}.

(** The class as its body leaves it. *)
Definition loaded : Class := {| amount_calculation := 0; results := [] |}.

(** [Calculator.Decorators.calc_decorator(func)], applied to [a] and [b];
    [func_name] is [func.__name__]. *)
Definition calc_decorator (func_name : string)
    (func : number -> number -> Outcome number exception)
    (a b : number) (cls : Class) : Outcome number exception * Class :=
  match func a b with
  | Returns result =>
      let cr := {| last_op := func_name; last_result := result |} in
      (Returns result,
       {| amount_calculation := amount_calculation cls + 1;
          results := results cls ++ [cr] |})
  | Raises e => (Raises e, cls)
  end.

(** [Calculator.add], [sub], [mult] and [div], as decorated. *)
Definition add := calc_decorator "add" py_add.
Definition sub := calc_decorator "sub" py_sub.
Definition mult := calc_decorator "mult" py_mul.
Definition div := calc_decorator "div" py_truediv.

(** The separator-less [join] of [output_results]. *)
Definition join_all (pieces : list string) : string :=
  fold_right String.append EmptyString pieces.

(** [Calculator.output_results] *)
Definition output_results (cls : Class) : string :=
  PyStr.rstrip
    (join_all (map (fun x => __repr__ x +:+ String "010"%char EmptyString)
                 (results cls))).

(** A call of one of the four methods. *)
Definition call (m : Method) : number -> number -> Class ->
    Outcome number exception * Class :=
  match m with
  | Add => add
  | Sub => sub
  | Mult => mult
  | Div => div
  end.

Definition method_name (m : Method) : string :=
  match m with
  | Add => "add"
  | Sub => "sub"
  | Mult => "mult"
  | Div => "div"
  end.

(** What Python's operator of the method gives for the arguments. *)
Definition operator (m : Method) : number -> number ->
    Outcome number exception :=
  match m with
  | Add => py_add
  | Sub => py_sub
  | Mult => py_mul
  | Div => py_truediv
  end.

(** Calls one after the other, on whichever instances; a call that raises
    does not stop the caller. *)
Fixpoint run (calls : list (Method * number * number)) (cls : Class)
  : list (Outcome number exception) * Class :=
  match calls with
  | [] => ([], cls)
  | (m, a, b) :: rest =>
      let (out, cls') := call m a b cls in
      let (outs, cls'') := run rest cls' in
      (out :: outs, cls'')
  end.

(** The records of the calls that return, in the order of the calls. *)
Fixpoint records (calls : list (Method * number * number))
  : list CalculatorResult :=
  match calls with
  | [] => []
  | (m, a, b) :: rest =>
      match operator m a b with
      | Returns result =>
          {| last_op := method_name m; last_result := result |}
          :: records rest
      | Raises _ => records rest
      end
  end.

End Model.
End Calculator.

(** [str.upper] on the letters [a] to [z]; other characters below 128 stay
    as they are. *)
Definition ascii_upper (s : string) : string :=
  string_of_list_ascii
    (map (fun c =>
            let n := nat_of_ascii c in
            if ((97 <=? n) && (n <=? 122))%nat then ascii_of_nat (n - 32)
            else c)
       (list_ascii_of_string s)).

(** ** Properties of the string operations *)

Lemma split_not_nil sep s : PyStr.split sep s <> [].
Proof.
  destruct s as [|c r]; simpl; [done|].
  destruct (Ascii.eqb c sep); [done|].
  by destruct (PyStr.split sep r).
Qed.

Lemma join_split sep s : PyStr.join sep (PyStr.split sep s) = s.
Proof.
  induction s as [|c r IH]; simpl; [done|].
  destruct (Ascii.eqb_spec c sep) as [->|Hne].
  - pose proof (split_not_nil sep r) as Hnil.
    destruct (PyStr.split sep r) as [|p ps]; [done|].
    change (PyStr.join sep ("" :: p :: ps))
      with ("" +:+ String sep (PyStr.join sep (p :: ps))).
    by rewrite IH.
  - pose proof (split_not_nil sep r) as Hnil.
    destruct (PyStr.split sep r) as [|p ps]; [done|].
    destruct ps as [|p' ps]; simpl in *; by rewrite <- IH.
Qed.

Lemma split_no_separator sep s :
  Forall (fun piece =>
            PyStr.all_chars (fun c => negb (Ascii.eqb c sep)) piece = true)
    (PyStr.split sep s).
Proof.
  induction s as [|c r IH]; simpl.
  - by constructor.
  - destruct (Ascii.eqb c sep) eqn:Hc.
    + by constructor.
    + destruct (PyStr.split sep r) as [|p ps].
      * constructor; [|done]. simpl. by rewrite Hc.
      * inversion IH as [|? ? Hp Hps]; subst.
        constructor; [|done]. simpl. by rewrite Hc, Hp.
Qed.

Lemma lstrip_spec s :
  exists l, s = l +:+ PyStr.lstrip s
    /\ PyStr.all_chars PyStr.is_space l = true
    /\ (PyStr.is_space <$> PyStr.first_char (PyStr.lstrip s)) <> Some true.
Proof.
  induction s as [|c r (l & Hl & Hsp & Hfirst)]; simpl.
  - by exists "".
  - destruct (PyStr.is_space c) eqn:Hc.
    + exists (String c l). simpl. rewrite Hc, Hsp.
      split; [|done].
      change (String c r = String c (l +:+ PyStr.lstrip r)). by f_equal.
    + exists "". simpl. by rewrite Hc.
Qed.

Lemma rstrip_spec s :
  exists r, s = PyStr.rstrip s +:+ r
    /\ PyStr.all_chars PyStr.is_space r = true
    /\ (PyStr.is_space <$> PyStr.last_char (PyStr.rstrip s)) <> Some true
    /\ (PyStr.rstrip s = "" \/
        PyStr.first_char (PyStr.rstrip s) = PyStr.first_char s).
Proof.
  induction s as [|c t (r & Hr & Hsp & Hlast & Hfirst)]; simpl.
  - exists "". by auto.
  - destruct (PyStr.rstrip t) as [|c' t'] eqn:Ht.
    + change (t = r) in Hr. subst t.
      destruct (PyStr.is_space c) eqn:Hc.
      * exists (String c r). simpl. rewrite Hc, Hsp. by auto.
      * exists r. simpl. rewrite Hc. by auto.
    + exists r. repeat split; auto.
      change (String c t = String c (String c' t' +:+ r)). by f_equal.
Qed.

Lemma strip_spec e : stripped_of e (PyStr.strip e).
Proof.
  unfold stripped_of, PyStr.strip.
  destruct (lstrip_spec e) as (l & Hl & Hlsp & Hfirst).
  destruct (rstrip_spec (PyStr.lstrip e)) as (r & Hr & Hrsp & Hlast & Hhead).
  exists l, r. repeat split; auto.
  - by rewrite <- Hr.
  - destruct Hhead as [-> | ->]; [done | exact Hfirst].
Qed.

Lemma fold_left_snoc_map {A B} (f : A -> B) (l : list A) (acc : list B) :
  fold_left (fun acc x => acc ++ [f x]) l acc = acc ++ map f l.
Proof.
  revert acc. induction l as [|x l IH]; intros acc; simpl.
  - by rewrite app_nil_r.
  - by rewrite IH, <- app_assoc.
Qed.

(** C10.  [_get_output_variable_names] returns the default names
    [TARGET_CLASS], [criterion], [Coverage], in that order, when the
    configured list is empty; else it returns the entries of the
    comma-separated list with the whitespace around them removed, in their
    order.  The entries are the pieces between the commas (joined by commas
    they give the configured string back, and none contains a comma), and
    each returned name is its entry without the surrounding whitespace. *)
Theorem get_output_variable_names_requested (cfg : Configuration) :
  _get_output_variable_names cfg = requested_names cfg
  /\ PyStr.join ","%char (comma_separated_entries (output_variables cfg))
     = output_variables cfg
  /\ Forall (fun entry =>
               PyStr.all_chars (fun c => negb (Ascii.eqb c ","%char)) entry
               = true)
       (comma_separated_entries (output_variables cfg))
  /\ Forall2 stripped_of (comma_separated_entries (output_variables cfg))
       (map PyStr.strip (comma_separated_entries (output_variables cfg))).
Proof.
  repeat split.
  - unfold _get_output_variable_names, requested_names.
    destruct (output_variables cfg) as [|c r] eqn:Hcfg.
    + by rewrite decide_True.
    + rewrite decide_False by done.
      by rewrite fold_left_snoc_map.
  - apply join_split.
  - apply split_no_separator.
  - induction (comma_separated_entries (output_variables cfg)); simpl;
      constructor; auto using strip_spec.
Qed.

Example get_output_variable_names_default :
  _get_output_variable_names
    {| seed := VInt 0; statistics_backend := CSV; output_variables := "" |}
  = ["TARGET_CLASS"; "criterion"; "Coverage"].
Proof. reflexivity. Qed.

Example get_output_variable_names_configured :
  _get_output_variable_names
    {| seed := VInt 0; statistics_backend := CSV;
       output_variables := "Coverage, Size ,,CoverageTimeline" |}
  = ["Coverage"; "Size"; ""; "CoverageTimeline"].
Proof. reflexivity. Qed.

(** ** Properties of the assertion model *)

Section AssertionProperties.
Context {testcase : TestCaseModule}.
Import Assertion.

(** C7.  A clone has the variant, the value and, for a field assertion,
    the field and the owners of the original; its source is the original
    source cloned into the target test case at the offset when the
    original has a source, and is absent when the original has none. *)
Theorem clone_fidelity (a : Assertion) (new_test_case : TestCase)
    (offset : Z) :
  variant_of (clone a new_test_case offset) = variant_of a
  /\ value (clone a new_test_case offset) = value a
  /\ field (clone a new_test_case offset) = field a
  /\ owners (clone a new_test_case offset) = owners a
  /\ source (clone a new_test_case offset)
     = match source a with
       | Some vr => Some (reference_clone vr new_test_case offset)
       | None => None
       end.
Proof. by destruct a as [[vr|] v | [vr|] v f o | [vr|] v]. Qed.

(** [test_clone] of [test_fieldassertion.py]. *)
Example test_clone (source' : VariableReference) (new_test_case : TestCase) :
  let cloned :=
    clone (FieldAssertion (Some source') (VInt 1337) "field" None)
      new_test_case 20 in
  source cloned = Some (reference_clone source' new_test_case 20)
  /\ value cloned = VInt 1337
  /\ field cloned = Some "field"
  /\ owners cloned = None.
Proof. done. Qed.

Example complex_clone_without_source (new_test_case : TestCase) :
  clone (ComplexAssertion None (VStr "x")) new_test_case 3
  = ComplexAssertion None (VStr "x").
Proof. done. Qed.

(** C8.  [accept] runs exactly one method of the visitor, the one of the
    assertion's own variant ([visit_complex_assertion] for a complex
    assertion, [visit_field_assertion] for a field assertion,
    [visit_primitive_assertion] for a primitive one), on the assertion
    itself: for every visitor the effect of [accept] is the effect of that
    method, and a visitor that records its calls records that one call
    and no other. *)
Theorem accept_dispatch {S : Type} (a : Assertion)
    (visitor : AssertionVisitor S) (st : S) (calls : list VisitorCall) :
  accept a visitor st = method_of_variant visitor a a st
  /\ accept a recording_visitor calls = calls ++ [call_of_variant a]
  /\ match a with
     | ComplexAssertion _ _ =>
         method_of_variant visitor a = visit_complex_assertion visitor
         /\ call_of_variant a = CallVisitComplex a
     | FieldAssertion _ _ _ _ =>
         method_of_variant visitor a = visit_field_assertion visitor
         /\ call_of_variant a = CallVisitField a
     | PrimitiveAssertion _ _ =>
         method_of_variant visitor a = visit_primitive_assertion visitor
         /\ call_of_variant a = CallVisitPrimitive a
     end.
Proof. by destruct a. Qed.

(** [test_accept] of [test_fieldassertion.py]. *)
Example test_accept (source' : VariableReference) :
  let assertion := FieldAssertion (Some source') (VInt 1337) "field" None in
  accept assertion recording_visitor [] = [CallVisitField assertion].
Proof. done. Qed.

End AssertionProperties.

(** ** Properties of the collector *)

Section CollectorProperties.
Context {factories : SequenceFactoryModule}.

(** *** Dictionaries *)

Lemma dict_get_set_eq {V} k (v : V) d : Dict.get k (Dict.set k v d) = Some v.
Proof.
  induction d as [|[k' v'] d IH]; simpl.
  - by rewrite String.eqb_refl.
  - destruct (String.eqb k k') eqn:Hk; simpl; rewrite Hk; [done | exact IH].
Qed.

Lemma dict_get_set_ne {V} k k' (v : V) d :
  k <> k' -> Dict.get k' (Dict.set k v d) = Dict.get k' d.
Proof.
  intros Hne. induction d as [|[k'' v''] d IH]; simpl.
  - destruct (String.eqb_spec k' k); [congruence | done].
  - destruct (String.eqb_spec k k'') as [->|Hk]; simpl.
    + destruct (String.eqb_spec k' k''); [congruence | done].
    + by rewrite IH.
Qed.

Lemma dict_get_keys {V} k (d : list (string * V)) :
  k ∈ Dict.keys d <-> is_Some (Dict.get k d).
Proof.
  induction d as [|[k' v'] d IH]; simpl.
  - split; [by intros ?%elem_of_nil | by intros [? ?]].
  - destruct (String.eqb_spec k k') as [->|Hk].
    + split; [by eauto | intros _; by left].
    + rewrite elem_of_cons, IH. split; [by intros [?|?] | by right].
Qed.

(** *** [set_output_variable] *)

(** The name is not registered as a sequence: the variable goes to the
    flat map. *)
Lemma set_output_variable_scalar (w : World) (variable : OutputVariable) :
  Dict.get (name variable) (_sequence_output_variable_factories (self w))
    = None ->
  set_output_variable variable w
  = (Return tt,
     {| self := with_output_variables (self w)
                  (<[name variable := variable]>
                     (_output_variables (self w)));
        log := log w;
        written := written w |}).
Proof. intros Hget. unfold set_output_variable. run_M. by rewrite Hget. Qed.

(** The name is registered as a sequence: the value goes to the factory
    when it is a direct one, and the call fails its assertion when not. *)
Lemma set_output_variable_sequence (w : World) (variable : OutputVariable)
    (var : SequenceOutputVariableFactory) :
  Dict.get (name variable) (_sequence_output_variable_factories (self w))
    = Some var ->
  set_output_variable variable w
  = if isinstance_direct var then
      (Return tt,
       {| self := with_sequence_output_variable_factories (self w)
                    (Dict.set (name variable)
                       (set_value (value variable) var)
                       (_sequence_output_variable_factories (self w)));
          log := log w;
          written := written w |})
    else (Raise AssertionError, w).
Proof.
  intros Hget. unfold set_output_variable. run_M. rewrite Hget.
  by destruct (isinstance_direct var).
Qed.

Lemma registered_sequences (s : SearchStatistics) :
  registered s ->
  exists q1 q2 q3 q4,
    _sequence_output_variable_factories s =
      [("CoverageTimeline",
        {| class_of := _CoverageSequenceOutputVariableFactory;
           state_of := q1 |});
       ("SizeTimeline",
        {| class_of := _SizeSequenceOutputVariableFactory;
           state_of := q2 |});
       ("LengthTimeline",
        {| class_of := _LengthSequenceOutputVariableFactory;
           state_of := q3 |});
       ("TotalExceptionsTimeline",
        {| class_of := DirectSequenceOutputVariableFactory;
           state_of := q4 |})].
Proof.
  intros [_ Hseq].
  destruct (_sequence_output_variable_factories s)
    as [|[k1 [c1 q1]] [|[k2 [c2 q2]] [|[k3 [c3 q3]] [|[k4 [c4 q4]] [|? ?]]]]];
    simpl in Hseq; try discriminate.
  injection Hseq as -> -> -> -> -> -> -> ->.
  by exists q1, q2, q3, q4.
Qed.

(** C1, as the code has it.  For a name registered as a sequence,
    [set_output_variable] never touches the flat map.  Under
    [TotalExceptionsTimeline], whose factory is a direct one, the value goes
    to that factory through [set_value] and nothing else changes: the
    registry is the old one with that factory replaced at its place, and
    the backend, the chromosome factories, the start time, the best
    individual, the log and what the backend has received are the same.  Under
    [CoverageTimeline], [SizeTimeline] and [LengthTimeline], whose factories
    are not direct ones, the call fails its assertion and leaves everything
    as it was. *)
Theorem set_output_variable_sequence_routing (w : World)
    (variable : OutputVariable) :
  registered (self w) ->
  name variable ∈ Dict.keys (_sequence_output_variable_factories (self w)) ->
  exists var,
    Dict.get (name variable) (_sequence_output_variable_factories (self w))
      = Some var
    /\ ((name variable = "TotalExceptionsTimeline"
         /\ isinstance_direct var = true
         /\ exists w',
             set_output_variable variable w = (Return tt, w')
             /\ _sequence_output_variable_factories (self w')
                = Dict.set (name variable) (set_value (value variable) var)
                    (_sequence_output_variable_factories (self w))
             /\ Dict.get (name variable)
                  (_sequence_output_variable_factories (self w'))
                = Some (set_value (value variable) var)
             /\ (forall k, k <> name variable ->
                   Dict.get k (_sequence_output_variable_factories (self w'))
                   = Dict.get k (_sequence_output_variable_factories (self w)))
             /\ _output_variables (self w') = _output_variables (self w)
             /\ _backend (self w') = _backend (self w)
             /\ _variable_factories (self w') = _variable_factories (self w)
             /\ _start_time (self w') = _start_time (self w)
             /\ _best_individual (self w') = _best_individual (self w)
             /\ log w' = log w
             /\ written w' = written w)
        \/ (name variable ∈ ["CoverageTimeline"; "SizeTimeline"; "LengthTimeline"]
            /\ isinstance_direct var = false
            /\ set_output_variable variable w = (Raise AssertionError, w))).
Proof.
  intros Hreg Hkey.
  apply dict_get_keys in Hkey as [var Hget]. exists var. split; [done|].
  pose proof (set_output_variable_sequence w variable var Hget) as Hset.
  destruct (registered_sequences _ Hreg) as (q1 & q2 & q3 & q4 & Hseq).
  rewrite Hseq in Hget. simpl in Hget.
  repeat match type of Hget with
         | (if String.eqb ?a ?b then _ else _) = _ =>
             destruct (String.eqb_spec a b) as [Hname|?]
         end; try discriminate; injection Hget as <-.
  - right. split; [rewrite Hname; set_solver | by split].
  - right. split; [rewrite Hname; set_solver | by split].
  - right. split; [rewrite Hname; set_solver | by split].
  - left. split; [done|]. split; [done|].
    eexists. split; [exact Hset|]. simpl.
    split; [done|].
    split; [apply dict_get_set_eq|].
    split; [intros k Hk; by apply dict_get_set_ne|]. done.
Qed.

(** *** [current_individual] *)

(** C9, as the code has it.  Without a backend the call returns at once:
    nothing is logged and nothing changes.  With a backend, an argument that
    is not a test suite chromosome makes the call log a warning and return,
    without raising and without any change to the collector; a test suite
    chromosome makes it store one scalar per registered chromosome factory
    under the factory's name, replacing what the name held, and update each
    registered sequence factory once with the individual. *)
Theorem current_individual_effect (w : World) (individual : Chromosome) :
  registered (self w) ->
  current_individual individual w =
    match _backend (self w) with
    | None => (Return tt, w)
    | Some _ =>
        match individual with
        | OtherChromosome =>
            (Return tt,
             {| self := self w;
                log := log w ++
                  [{| level := WARNING;
                      message :=
                        "SearchStatistics expected a TestSuiteChromosome" |}];
                written := written w |})
        | TestSuite t =>
            (Return tt,
             {| self :=
                  with_sequence_output_variable_factories
                    (with_output_variables (self w)
                       (<["Fitness" :=
                            {| name := "Fitness";
                               value := VFloat (fitness t) |}]>
                          (<["Coverage" :=
                               {| name := "Coverage";
                                  value := VFloat (coverage t) |}]>
                             (<["Size" :=
                                  {| name := "Size";
                                     value := VInt (size t) |}]>
                                (<["Length" :=
                                     {| name := "Length";
                                        value :=
                                          VInt (total_length_of_test_cases t)
                                     |}]>
                                   (_output_variables (self w)))))))
                    (map (fun item => (item.1, update t item.2))
                       (_sequence_output_variable_factories (self w)));
                log := log w ++
                  [{| level := DEBUG; message := "Received individual" |}];
                written := written w |})
        end
    end.
Proof.
  intros Hreg.
  destruct (registered_sequences _ Hreg) as (q1 & q2 & q3 & q4 & Hseq).
  destruct Hreg as [Hfact _].
  destruct w as [[backend direct fact seq start best] lg wr]; simpl in *.
  subst fact seq.
  unfold current_individual. run_M.
  destruct backend as [b|]; [|done].
  destruct individual as [t|]; [|done].
  reflexivity.
Qed.

(** *** [_get_output_variables] *)

Lemma knows_direct s n :
  knows s n DirectlySet = true <-> is_Some (_output_variables s !! n).
Proof. unfold knows. by rewrite bool_decide_eq_true. Qed.

(** What it means for a source, or for none, to resolve a name. *)
Lemma resolving_source_cases (s : SearchStatistics) (n : string) :
  match resolving_source s n with
  | Some DirectlySet => is_Some (_output_variables s !! n)
  | Some ChromosomeFactory =>
      _output_variables s !! n = None
      /\ is_Some (Dict.get n (_variable_factories s))
  | Some SequenceFactory =>
      _output_variables s !! n = None
      /\ Dict.get n (_variable_factories s) = None
      /\ is_Some (Dict.get n (_sequence_output_variable_factories s))
  | None => unresolvable s n
  end.
Proof.
  unfold resolving_source, unresolvable, priority_order, knows. simpl.
  repeat case_bool_decide; simpl; rewrite <- ?eq_None_not_Some in *; auto.
Qed.

Lemma resolving_source_direct (s : SearchStatistics) (n : string) d :
  _output_variables s !! n = Some d ->
  resolving_source s n = Some DirectlySet.
Proof.
  intros Hd. unfold resolving_source, priority_order. simpl.
  by rewrite bool_decide_true by eauto.
Qed.

Lemma resolving_source_chromosome (s : SearchStatistics) (n : string) f :
  _output_variables s !! n = None ->
  Dict.get n (_variable_factories s) = Some f ->
  resolving_source s n = Some ChromosomeFactory.
Proof.
  intros Hd Hf. unfold resolving_source, priority_order, knows. simpl.
  rewrite Hd, Hf.
  rewrite bool_decide_false by (by intros [? ?]).
  by rewrite bool_decide_true by eauto.
Qed.

Lemma resolving_source_sequence (s : SearchStatistics) (n : string) q :
  _output_variables s !! n = None ->
  Dict.get n (_variable_factories s) = None ->
  Dict.get n (_sequence_output_variable_factories s) = Some q ->
  resolving_source s n = Some SequenceFactory.
Proof.
  intros Hd Hf Hq. unfold resolving_source, priority_order, knows. simpl.
  rewrite Hd, Hf, Hq.
  rewrite !bool_decide_false by (by intros [? ?]).
  by rewrite bool_decide_true by eauto.
Qed.

Lemma unresolvable_resolving_source (s : SearchStatistics) (n : string) :
  unresolvable s n -> resolving_source s n = None.
Proof.
  intros (Hd & Hf & Hs).
  unfold resolving_source, priority_order, knows. simpl.
  rewrite Hd, Hf, Hs.
  rewrite !bool_decide_false; [done | by intros [? ?] ..].
Qed.

Lemma fold_left_map_items {A B C} (f : C -> B -> C) (g : A -> B) l c :
  fold_left f (map g l) c = fold_left (fun c x => f c (g x)) l c.
Proof. revert c. induction l; intros c; simpl; auto. Qed.

(** One round of the loop resolves the name by the first source, in the
    priority order, that knows it; a name that no source knows gets the empty
    value when [skip_missing] holds, and else ends the function with an error
    record and the empty mapping. *)
Lemma get_output_variables_body_resolution (individual : TestSuiteChromosome)
    (skip_missing : bool) (variables : gmap string OutputVariable)
    (variable_name : string) (w : World) :
  _get_output_variables_body individual skip_missing variables variable_name w
  = match resolving_source (self w) variable_name with
    | Some src =>
        (Return
           (Next (store_all
                    (contribution (self w) individual variable_name src)
                    variables)),
         w)
    | None =>
        if skip_missing then
          (Return
             (Next (<[variable_name :=
                        {| name := variable_name; value := VStr "" |}]>
                      variables)),
           w)
        else
          (Return (Leave ∅),
           logging w ERROR
             ("No obtained value for output variable " +:+ variable_name))
    end.
Proof.
  remember (resolving_source (self w) variable_name) as rs eqn:Hrs.
  unfold _get_output_variables_body. run_M.
  destruct (_output_variables (self w) !! variable_name) as [d|] eqn:Hd.
  { rewrite (resolving_source_direct _ _ _ Hd) in Hrs. subst rs.
    unfold contribution, store_all. by rewrite Hd. }
  destruct (Dict.get variable_name (_variable_factories (self w)))
    as [f|] eqn:Hf.
  { rewrite (resolving_source_chromosome _ _ f Hd Hf) in Hrs. subst rs.
    unfold contribution, store_all. by rewrite Hf. }
  destruct (Dict.get variable_name
              (_sequence_output_variable_factories (self w)))
    as [q|] eqn:Hq.
  { rewrite (resolving_source_sequence _ _ q Hd Hf Hq) in Hrs. subst rs.
    unfold contribution, store_all. rewrite Hq.
    by rewrite fold_left_map_items. }
  rewrite (unresolvable_resolving_source (self w) variable_name) in Hrs
    by done.
  subst rs. by destruct skip_missing.
Qed.

Lemma store_all_lookup_ne items (variables : gmap string OutputVariable) n :
  n ∉ map fst items -> store_all items variables !! n = variables !! n.
Proof.
  unfold store_all. revert variables.
  induction items as [|[k v] items IH]; intros variables Hn; simpl; [done|].
  simpl in Hn. apply not_elem_of_cons in Hn as [Hk Hn].
  rewrite IH by done. by rewrite lookup_insert_ne.
Qed.

Lemma store_all_is_Some items (variables : gmap string OutputVariable) n :
  is_Some (variables !! n) -> is_Some (store_all items variables !! n).
Proof.
  unfold store_all. revert variables.
  induction items as [|[k v] items IH]; intros variables Hn; simpl; [done|].
  apply IH. destruct (decide (k = n)) as [->|Hk].
  - rewrite lookup_insert_eq. by eauto.
  - by rewrite lookup_insert_ne.
Qed.

(** The loop leaves the collector alone: it returns, and all it does to the
    world is to log. *)
Lemma get_output_variables_loop_world individual skip_missing names :
  forall variables (w : World),
    exists result extra,
      _get_output_variables_loop individual skip_missing names variables w
      = (Return result,
         {| self := self w; log := log w ++ extra; written := written w |}).
Proof.
  induction names as [|h names IH]; intros variables w; simpl.
  - exists variables, []. destruct w. by rewrite app_nil_r.
  - unfold mbind, M_bind, bind.
    rewrite get_output_variables_body_resolution.
    destruct (resolving_source (self w) h) as [src|].
    + apply IH.
    + destruct skip_missing.
      * apply IH.
      * eexists ∅, [_]. reflexivity.
Qed.

(** Without [skip_missing], a requested name that no source knows ends the
    function: the first such name is logged and the empty mapping returned. *)
Lemma get_output_variables_loop_leaves individual (w : World) names :
  forall variables n,
    n ∈ names -> unresolvable (self w) n ->
    exists m,
      m ∈ names /\ unresolvable (self w) m
      /\ _get_output_variables_loop individual false names variables w
         = (Return ∅,
            logging w ERROR ("No obtained value for output variable " +:+ m)).
Proof.
  induction names as [|h names IH]; intros variables n Hin Hun.
  - by apply elem_of_nil in Hin.
  - simpl. unfold mbind, M_bind, bind.
    rewrite get_output_variables_body_resolution.
    pose proof (resolving_source_cases (self w) h) as Hcases.
    destruct (resolving_source (self w) h) as [src|] eqn:Hsrc.
    + apply elem_of_cons in Hin as [->|Hin].
      { rewrite (unresolvable_resolving_source _ _ Hun) in Hsrc. done. }
      destruct (IH (store_all (contribution (self w) individual h src)
                      variables) n Hin Hun) as (m & Hm & Hmu & Heq).
      exists m. split; [by right|]. by split.
    + exists h. split; [by left|]. by split.
Qed.

(** With [skip_missing] the loop runs to its end, logs nothing, and every
    requested name that no source knows is a key of the result. *)
Lemma get_output_variables_loop_skips individual (w : World) names :
  forall variables,
    exists result,
      _get_output_variables_loop individual true names variables w
      = (Return result, w)
      /\ (forall k, is_Some (variables !! k) -> is_Some (result !! k))
      /\ (forall k, k ∈ names -> unresolvable (self w) k ->
            is_Some (result !! k)).
Proof.
  induction names as [|h names IH]; intros variables; simpl.
  - exists variables. split; [done|]. split; [done|].
    by intros k ?%elem_of_nil.
  - unfold mbind, M_bind, bind.
    rewrite get_output_variables_body_resolution.
    destruct (resolving_source (self w) h) as [src|] eqn:Hsrc.
    + destruct (IH (store_all (contribution (self w) individual h src)
                      variables)) as (result & Heq & Hmono & Hkeys).
      exists result. split; [done|]. split.
      * intros k Hk. by apply Hmono, store_all_is_Some.
      * intros k [->|Hk]%elem_of_cons Hun; [|by auto].
        rewrite (unresolvable_resolving_source _ _ Hun) in Hsrc. done.
    + destruct (IH (<[h := {| name := h; value := VStr "" |}]> variables))
        as (result & Heq & Hmono & Hkeys).
      exists result. split; [done|]. split.
      * intros k Hk. apply Hmono.
        destruct (decide (h = k)) as [->|Hne].
        -- rewrite lookup_insert_eq. by eauto.
        -- by rewrite lookup_insert_ne.
      * intros k [->|Hk]%elem_of_cons Hun; [|by auto].
        apply Hmono. rewrite lookup_insert_eq. by eauto.
Qed.

(** A directly-set name that has been, or will be, resolved keeps the
    directly-set value to the end of the loop, unless the loop leaves early
    or a requested sequence expands to a variable of that very name. *)
Lemma get_output_variables_loop_direct individual skip_missing (w : World)
    n d names :
  _output_variables (self w) !! n = Some d ->
  forall variables,
    variables !! n = Some d \/ n ∈ names ->
    exists result w',
      _get_output_variables_loop individual skip_missing names variables w
      = (Return result, w')
      /\ (result !! n = Some d
          \/ (result = ∅ /\ skip_missing = false
              /\ exists m, m ∈ names /\ unresolvable (self w) m)
          \/ (exists m q var,
                m ∈ names
                /\ resolving_source (self w) m = Some SequenceFactory
                /\ Dict.get m (_sequence_output_variable_factories (self w))
                   = Some q
                /\ var ∈ get_output_variables q
                /\ name var = n)).
Proof.
  intros Hd.
  induction names as [|h names IH]; intros variables Hn; simpl.
  - destruct Hn as [Hn|Hn]; [|by apply elem_of_nil in Hn].
    exists variables, w. by auto.
  - unfold mbind, M_bind, bind.
    rewrite get_output_variables_body_resolution.
    pose proof (resolving_source_cases (self w) h) as Hcases.
    assert (forall variables',
      (variables' !! n = Some d \/ n ∈ names) ->
      exists result w',
        _get_output_variables_loop individual skip_missing names variables' w
        = (Return result, w')
        /\ (result !! n = Some d
            \/ (result = ∅ /\ skip_missing = false
                /\ exists m, m ∈ h :: names /\ unresolvable (self w) m)
            \/ (exists m q var,
                  m ∈ h :: names
                  /\ resolving_source (self w) m = Some SequenceFactory
                  /\ Dict.get m (_sequence_output_variable_factories (self w))
                     = Some q
                  /\ var ∈ get_output_variables q
                  /\ name var = n))) as Hrest.
    { intros variables' Hn'.
      destruct (IH variables' Hn') as (result & w' & Heq & Hres).
      exists result, w'. split; [done|].
      destruct Hres as [?|[(? & ? & m & ? & ?)|(m & q & var & ? & ?)]].
      - by left.
      - right; left. repeat split; auto. exists m. split; [by right | done].
      - right; right. exists m, q, var. split; [by right | done]. }
    destruct (resolving_source (self w) h) as [[| |]|] eqn:Hsrc.
    + (* directly set *)
      destruct Hcases as [dh Hdh]. simpl. rewrite Hdh.
      apply Hrest. unfold store_all. simpl.
      destruct (decide (h = n)) as [->|Hne].
      * left. rewrite lookup_insert_eq. congruence.
      * rewrite lookup_insert_ne by done.
        destruct Hn as [?|[?|?]%elem_of_cons]; [by left | congruence | by right].
    + (* chromosome factory *)
      destruct Hcases as [Hnone [f Hf]]. simpl. rewrite Hf.
      assert (h <> n) as Hne by congruence.
      apply Hrest. unfold store_all. simpl.
      rewrite lookup_insert_ne by done.
      destruct Hn as [?|[?|?]%elem_of_cons]; [by left | congruence | by right].
    + (* sequence factory *)
      destruct Hcases as (Hnone & _ & [q Hq]). simpl. rewrite Hq.
      assert (h <> n) as Hne by congruence.
      destruct (decide (n ∈ map name (get_output_variables q))) as [Hexp|Hexp].
      * apply list_elem_of_fmap in Hexp as (var & Hname & Hvar).
        destruct (get_output_variables_loop_world individual skip_missing
                    names
                    (store_all
                       (map (fun var => (name var, var))
                          (get_output_variables q)) variables) w)
          as (result & extra & Heq).
        eexists _, _. split; [exact Heq|].
        right; right. exists h, q, var. split; [by left | done].
      * apply Hrest. rewrite store_all_lookup_ne.
        -- destruct Hn as [?|[?|?]%elem_of_cons];
             [by left | congruence | by right].
        -- by rewrite map_map.
    + (* no source *)
      pose proof Hcases as (Hnone & _).
      assert (h <> n) as Hne by congruence.
      destruct skip_missing.
      * apply Hrest. rewrite lookup_insert_ne by done.
        destruct Hn as [?|[?|?]%elem_of_cons]; [by left | congruence | by right].
      * eexists _, _. split; [reflexivity|].
        right; left. repeat split; auto.
        exists h. split; [by left | done].
Qed.

(** The loop is resolution in the priority order: without [skip_missing] the
    first requested name that no source knows is logged and the empty
    mapping returned; otherwise every requested name, in order, stores what
    its resolving source contributes, and nothing is logged. *)
Lemma get_output_variables_loop_resolution individual skip_missing
    (w : World) names :
  forall variables,
    _get_output_variables_loop individual skip_missing names variables w
    = match (if skip_missing then None else first_unknown (self w) names)
      with
      | Some m =>
          (Return ∅,
           logging w ERROR ("No obtained value for output variable " +:+ m))
      | None =>
          (Return (resolve_requested (self w) individual names variables), w)
      end.
Proof.
  induction names as [|h names IH]; intros variables.
  - by destruct skip_missing.
  - simpl. unfold mbind, M_bind, bind.
    rewrite get_output_variables_body_resolution.
    unfold first_unknown, resolve_requested, resolved_entries. simpl.
    destruct (resolving_source (self w) h) as [src|] eqn:Hsrc.
    + rewrite IH. by destruct skip_missing.
    + destruct skip_missing; [|done].
      rewrite IH. reflexivity.
Qed.

(** C4.  A requested name that is both directly set and the name of a
    chromosome factory resolves to the directly-set variable, not to the one
    the factory derives.  Every name is resolved by the first source that
    knows it, in the order directly-set scalars, chromosome factories,
    sequence factories, in a round of the loop and in
    [_get_output_variables] as a whole: what the function returns is the
    mapping in which each requested name, in order, has stored what its
    resolving source contributes, and for this name that is the directly-set
    variable alone; without [skip_missing] the function instead logs the
    first requested name that no source knows and returns the empty mapping.
    So in the mapping returned the name holds the directly-set variable,
    unless the function has left with the empty mapping over a name that no
    source knows, or a requested sequence has expanded to a variable of that
    very name. *)
Theorem direct_value_has_priority (cfg : Configuration)
    (individual : TestSuiteChromosome) (skip_missing : bool) (w : World)
    (n : string) (d : OutputVariable) (f : ChromosomeOutputVariableFactory) :
  n ∈ _get_output_variable_names cfg ->
  _output_variables (self w) !! n = Some d ->
  Dict.get n (_variable_factories (self w)) = Some f ->
  (forall variables,
     _get_output_variables_body individual skip_missing variables n w
     = (Return (Next (<[n := d]> variables)), w))
  /\ (forall variables m,
        resolving_source (self w) m
        = List.find (knows (self w) m)
            [DirectlySet; ChromosomeFactory; SequenceFactory]
        /\ _get_output_variables_body individual skip_missing variables m w
           = match resolving_source (self w) m with
             | Some src =>
                 (Return
                    (Next (store_all (contribution (self w) individual m src)
                             variables)),
                  w)
             | None =>
                 if skip_missing then
                   (Return
                      (Next (<[m := {| name := m; value := VStr "" |}]>
                               variables)),
                    w)
                 else
                   (Return (Leave ∅),
                    logging w ERROR
                      ("No obtained value for output variable " +:+ m))
             end)
  /\ resolving_source (self w) n = Some DirectlySet
  /\ resolved_entries (self w) individual n = [(n, d)]
  /\ _get_output_variables cfg individual skip_missing w
     = match (if skip_missing then None
              else first_unknown (self w) (_get_output_variable_names cfg))
       with
       | Some m =>
           (Return ∅,
            logging w ERROR ("No obtained value for output variable " +:+ m))
       | None =>
           (Return
              (resolve_requested (self w) individual
                 (_get_output_variable_names cfg) ∅),
            w)
       end
  /\ exists result w',
       _get_output_variables cfg individual skip_missing w
       = (Return result, w')
       /\ (result !! n = Some d
           \/ (result = ∅ /\ skip_missing = false
               /\ exists m,
                    m ∈ _get_output_variable_names cfg
                    /\ unresolvable (self w) m)
           \/ (exists m q var,
                 m ∈ _get_output_variable_names cfg
                 /\ resolving_source (self w) m = Some SequenceFactory
                 /\ Dict.get m (_sequence_output_variable_factories (self w))
                    = Some q
                 /\ var ∈ get_output_variables q
                 /\ name var = n)).
Proof.
  intros Hreq Hd Hf.
  pose proof (resolving_source_direct _ _ _ Hd) as Hsrc.
  split; [|split; [|split; [|split; [|split]]]].
  - intros variables. rewrite get_output_variables_body_resolution.
    rewrite Hsrc. unfold contribution, store_all. by rewrite Hd.
  - intros variables m. split; [done|].
    apply get_output_variables_body_resolution.
  - exact Hsrc.
  - unfold resolved_entries. rewrite Hsrc. unfold contribution.
    by rewrite Hd.
  - unfold _get_output_variables.
    apply get_output_variables_loop_resolution.
  - unfold _get_output_variables.
    apply get_output_variables_loop_direct; [done | by right].
Qed.

(** C5.  A requested name that none of the three sources knows: with
    [skip_missing] the loop maps it to the output variable of that name with
    the empty string as value and goes on, to the end, logging nothing;
    without [skip_missing] the round for that name logs an error and leaves,
    and [_get_output_variables] logs an error for the first such name and
    returns the empty mapping. *)
Theorem unresolvable_name_handling (cfg : Configuration)
    (individual : TestSuiteChromosome) (w : World) (n : string) :
  n ∈ _get_output_variable_names cfg ->
  unresolvable (self w) n ->
  (forall variables,
     _get_output_variables_body individual true variables n w
     = (Return
          (Next (<[n := {| name := n; value := VStr "" |}]> variables)), w))
  /\ (forall variables rest,
        _get_output_variables_loop individual true (n :: rest) variables w
        = _get_output_variables_loop individual true rest
            (<[n := {| name := n; value := VStr "" |}]> variables) w)
  /\ (exists result,
        _get_output_variables cfg individual true w = (Return result, w)
        /\ is_Some (result !! n))
  /\ (forall variables,
        _get_output_variables_body individual false variables n w
        = (Return (Leave ∅),
           logging w ERROR ("No obtained value for output variable " +:+ n)))
  /\ (exists m,
        m ∈ _get_output_variable_names cfg
        /\ unresolvable (self w) m
        /\ _get_output_variables cfg individual false w
           = (Return ∅,
              logging w ERROR
                ("No obtained value for output variable " +:+ m))).
Proof.
  intros Hreq Hun.
  pose proof (unresolvable_resolving_source _ _ Hun) as Hnone.
  repeat split.
  - intros variables. rewrite get_output_variables_body_resolution.
    by rewrite Hnone.
  - intros variables rest. simpl. unfold mbind, M_bind, bind.
    rewrite get_output_variables_body_resolution. by rewrite Hnone.
  - unfold _get_output_variables.
    destruct (get_output_variables_loop_skips individual w
                (_get_output_variable_names cfg) ∅)
      as (result & Heq & _ & Hkeys).
    exists result. split; [done|]. by apply Hkeys.
  - intros variables. rewrite get_output_variables_body_resolution.
    by rewrite Hnone.
  - unfold _get_output_variables.
    by apply (get_output_variables_loop_leaves individual w _ ∅ n).
Qed.

(** *** [write_statistics] *)

(** Without a backend the call logs its first record and returns [False]. *)
Lemma write_statistics_without_backend (cfg : Configuration) (now : Z)
    (w : World) :
  _backend (self w) = None ->
  write_statistics cfg now w
  = (Return false, logging w INFO "Writing statistics").
Proof.
  intros Hb. unfold write_statistics. run_M. by rewrite Hb.
Qed.

(** Without a best individual the call records the total time, logs an
    error and returns [False]. *)
Lemma write_statistics_without_individual (cfg : Configuration) (now : Z)
    (w : World) backend :
  _backend (self w) = Some backend ->
  _best_individual (self w) = None ->
  write_statistics cfg now w
  = (Return false,
     {| self := with_output_variables (self w)
                  (<["total_time" :=
                       {| name := "total_time";
                          value := VInt (now - _start_time (self w)) |}]>
                     (_output_variables (self w)));
        log := log w ++
          [{| level := INFO; message := "Writing statistics" |};
           {| level := ERROR;
              message :=
                "No statistics has been saved because Pynguin failed to "
                +:+ "generate any test case" |}];
        written := written w |}).
Proof.
  intros Hb Hi. unfold write_statistics. run_M. rewrite Hb, Hi. simpl.
  by rewrite <- app_assoc.
Qed.

(** With a backend and a best individual the call hands the mapping that
    [_get_output_variables] returns to the backend, and returns [True]. *)
Lemma write_statistics_with_individual (cfg : Configuration) (now : Z)
    (w : World) backend individual :
  _backend (self w) = Some backend ->
  _best_individual (self w) = Some individual ->
  exists result extra,
    _get_output_variables cfg individual false
      {| self := with_output_variables (self w)
                   (<["total_time" :=
                        {| name := "total_time";
                           value := VInt (now - _start_time (self w)) |}]>
                      (_output_variables (self w)));
         log := log w ++ [{| level := INFO; message := "Writing statistics" |}];
         written := written w |}
    = (Return result,
       {| self := with_output_variables (self w)
                    (<["total_time" :=
                         {| name := "total_time";
                            value := VInt (now - _start_time (self w)) |}]>
                       (_output_variables (self w)));
          log := (log w ++
                  [{| level := INFO; message := "Writing statistics" |}])
                 ++ extra;
          written := written w |})
    /\ write_statistics cfg now w
       = (Return true,
          {| self := with_output_variables (self w)
                       (<["total_time" :=
                            {| name := "total_time";
                               value := VInt (now - _start_time (self w)) |}]>
                          (_output_variables (self w)));
             log := (log w ++
                     [{| level := INFO; message := "Writing statistics" |}])
                    ++ extra;
             written := written w ++ [result] |}).
Proof.
  intros Hb Hi.
  edestruct (get_output_variables_loop_world individual false
               (_get_output_variable_names cfg) ∅) as (result & extra & Heq).
  exists result, extra. split; [exact Heq|].
  unfold write_statistics. run_M. rewrite Hb, Hi. simpl.
  unfold _get_output_variables in *. by rewrite Heq.
Qed.

(** C3.  When no backend is configured, or no best individual is recorded,
    [write_statistics] returns [False], it does not raise, and nothing is
    handed to the backend's [write_data]. *)
Theorem write_statistics_failure (cfg : Configuration) (now : Z) (w : World) :
  _backend (self w) = None \/ _best_individual (self w) = None ->
  exists w',
    write_statistics cfg now w = (Return false, w')
    /\ written w' = written w.
Proof.
  intros Hfail.
  destruct (_backend (self w)) as [backend|] eqn:Hb.
  - destruct Hfail as [?|Hi]; [done|].
    eexists. split; [by eapply write_statistics_without_individual | done].
  - eexists. split; [by apply write_statistics_without_backend | done].
Qed.

(** C6.  With a backend and a best individual, a requested name that no
    source knows does not make [write_statistics] fail: the error is logged,
    the empty mapping is handed to the backend's [write_data], and the call
    returns [True].  (The name [total_time] is always known by then.) *)
Theorem write_statistics_succeeds_with_unresolved_name (cfg : Configuration)
    (now : Z) (w : World) (backend : AbstractStatisticsBackend)
    (individual : TestSuiteChromosome) (n : string) :
  _backend (self w) = Some backend ->
  _best_individual (self w) = Some individual ->
  n ∈ _get_output_variable_names cfg ->
  n <> "total_time" ->
  unresolvable (self w) n ->
  exists w' m,
    write_statistics cfg now w = (Return true, w')
    /\ written w' = written w ++ [∅]
    /\ log w' = log w ++
         [{| level := INFO; message := "Writing statistics" |};
          {| level := ERROR;
             message := "No obtained value for output variable " +:+ m |}]
    /\ m ∈ _get_output_variable_names cfg.
Proof.
  intros Hb Hi Hreq Hne (Hd & Hf & Hs).
  destruct (write_statistics_with_individual cfg now w backend individual
              Hb Hi) as (result & extra & Hget & Hwrite).
  unfold _get_output_variables in Hget.
  edestruct (get_output_variables_loop_leaves individual
               {| self := with_output_variables (self w)
                            (<["total_time" :=
                                 {| name := "total_time";
                                    value := VInt (now - _start_time (self w))
                                 |}]>
                               (_output_variables (self w)));
                  log := log w ++
                    [{| level := INFO; message := "Writing statistics" |}];
                  written := written w |}
               (_get_output_variable_names cfg) ∅ n Hreq)
    as (m & Hm & _ & Hleave).
  { repeat split; simpl; [|done..]. by rewrite lookup_insert_ne. }
  rewrite Hleave in Hget. unfold logging in Hget. simpl in Hget.
  injection Hget as <- Hlog.
  eexists _, m. split; [exact Hwrite|]. simpl.
  split; [done|]. split; [|done].
  rewrite <- Hlog. by rewrite <- app_assoc.
Qed.

(** *** What no call changes *)

Lemma evolves_trans (var1 var2 var3 : SequenceOutputVariableFactory) :
  evolves var1 var2 -> evolves var2 var3 -> evolves var1 var3.
Proof. intros H12 H23. induction H23; [done | by constructor ..]. Qed.

Lemma evolves_class (var var' : SequenceOutputVariableFactory) :
  evolves var var' -> class_of var' = class_of var.
Proof. induction 1; simpl; congruence. Qed.

Lemma same_setup_refl (s : SearchStatistics) : same_setup s s.
Proof.
  repeat split. apply Forall2_same_length_lookup_2; [done|].
  intros i item item' Hi Hi'. split; [congruence|].
  replace item' with item by congruence. constructor.
Qed.

Lemma same_setup_trans (s1 s2 s3 : SearchStatistics) :
  same_setup s1 s2 -> same_setup s2 s3 -> same_setup s1 s3.
Proof.
  intros (? & ? & ? & ? & H12) (? & ? & ? & ? & H23).
  repeat split; [congruence..|].
  revert H23. generalize (_sequence_output_variable_factories s3).
  induction H12 as [|item1 item2 l1 l2 [Hk He] _ IH]; intros l3 H23;
    inversion H23 as [|? item3 ? l3' [Hk' He'] H23']; subst; constructor.
  - split; [congruence | by eapply evolves_trans].
  - by apply IH.
Qed.

Lemma same_setup_classes (s s' : SearchStatistics) :
  same_setup s s' ->
  map (fun item => (item.1, class_of item.2))
    (_sequence_output_variable_factories s')
  = map (fun item => (item.1, class_of item.2))
      (_sequence_output_variable_factories s).
Proof.
  intros (_ & _ & _ & _ & Hseq).
  induction Hseq as [|item item' l l' [Hk He] _ IH]; simpl; [done|].
  by rewrite Hk, (evolves_class _ _ He), IH.
Qed.

Lemma same_setup_keys (s s' : SearchStatistics) :
  same_setup s s' ->
  Dict.keys (_sequence_output_variable_factories s')
  = Dict.keys (_sequence_output_variable_factories s).
Proof.
  intros (_ & _ & _ & _ & Hseq). unfold Dict.keys.
  induction Hseq as [|item item' l l' [Hk He] _ IH]; simpl; [done|].
  by rewrite Hk, IH.
Qed.

Lemma registered_same_setup (s s' : SearchStatistics) :
  registered s -> same_setup s s' -> registered s'.
Proof.
  intros [Hf Hs] Hsame. split.
  - destruct Hsame as (_ & Hf' & _). congruence.
  - by rewrite (same_setup_classes _ _ Hsame).
Qed.

(** Replacing a registered factory by what [set_value] makes of it. *)
Lemma dict_set_evolves k x var
    (d : list (string * SequenceOutputVariableFactory)) :
  Dict.get k d = Some var ->
  Forall2 (fun item item' => item'.1 = item.1 /\ evolves item.2 item'.2)
    d (Dict.set k (set_value x var) d).
Proof.
  intros Hget. induction d as [|[k' v'] d IH]; simpl in *; [done|].
  destruct (String.eqb k k').
  - injection Hget as ->. constructor.
    + split; [done|]. simpl. by repeat constructor.
    + apply Forall2_same_length_lookup_2; [done|].
      intros i item item' Hi Hi'. split; [congruence|].
      replace item' with item by congruence. constructor.
  - constructor; [|by apply IH]. split; [done | constructor].
Qed.

Lemma map_update_evolves t
    (d : list (string * SequenceOutputVariableFactory)) :
  Forall2 (fun item item' => item'.1 = item.1 /\ evolves item.2 item'.2)
    d (map (fun item => (item.1, update t item.2)) d).
Proof.
  induction d as [|item d IH]; simpl; constructor; [|done].
  split; [done|]. simpl. by repeat constructor.
Qed.

Lemma set_output_variable_same_setup (variable : OutputVariable) (w : World) :
  same_setup (self w) (self (set_output_variable variable w).2).
Proof.
  destruct (Dict.get (name variable)
              (_sequence_output_variable_factories (self w)))
    as [var|] eqn:Hget.
  - rewrite (set_output_variable_sequence w variable var Hget).
    destruct (isinstance_direct var); [|apply same_setup_refl].
    repeat split; simpl. by apply dict_set_evolves.
  - rewrite (set_output_variable_scalar w variable Hget).
    destruct (same_setup_refl (self w)) as (? & ? & ? & ? & ?).
    by repeat split.
Qed.

(** What every round of a loop preserves, the loop preserves, also when a
    round raises. *)
Lemma for_each_invariant {A} (P : SearchStatistics -> Prop)
    (body : A -> M unit) (xs : list A) :
  (forall x w, P (self w) -> P (self (body x w).2)) ->
  forall w, P (self w) -> P (self (for_each xs body w).2).
Proof.
  intros Hbody. induction xs as [|x xs IH]; intros w HP; simpl; [done|].
  unfold mbind, M_bind, bind.
  pose proof (Hbody x w HP) as Hx.
  destruct (body x w) as [[[]|e] w']; simpl in *; [by apply IH | done].
Qed.

Lemma current_individual_same_setup (individual : Chromosome) (w : World) :
  same_setup (self w) (self (current_individual individual w).2).
Proof.
  unfold current_individual. unfold mbind at 1. unfold M_bind, bind, get_self.
  destruct (_backend (self w)); [|apply same_setup_refl].
  destruct individual as [t|]; [|apply same_setup_refl].
  unfold mbind, M_bind, bind, emit.
  match goal with
  | |- context [for_each ?xs ?body ?w1] =>
      pose proof (for_each_invariant (same_setup (self w)) body xs
                    (fun x w' H =>
                       same_setup_trans _ _ _ H
                         (set_output_variable_same_setup _ w'))
                    w1 (same_setup_refl _)) as Hloop;
      destruct (for_each xs body w1) as [[[]|e] w2]
  end; simpl in *; [|done].
  eapply same_setup_trans; [exact Hloop|].
  repeat split; simpl. apply map_update_evolves.
Qed.

Lemma write_statistics_same_setup (cfg : Configuration) (now : Z) (w : World) :
  same_setup (self w) (self (write_statistics cfg now w).2).
Proof.
  destruct (_backend (self w)) as [backend|] eqn:Hb.
  - destruct (_best_individual (self w)) as [individual|] eqn:Hi.
    + destruct (write_statistics_with_individual cfg now w backend individual
                  Hb Hi) as (result & extra & _ & ->).
      destruct (same_setup_refl (self w)) as (? & ? & ? & ? & ?).
      by repeat split.
    + rewrite (write_statistics_without_individual cfg now w backend Hb Hi).
      destruct (same_setup_refl (self w)) as (? & ? & ? & ? & ?).
      by repeat split.
  - rewrite (write_statistics_without_backend cfg now w Hb).
    apply same_setup_refl.
Qed.

Lemma perform_same_setup (c : Call) (w : World) :
  same_setup (self w) (self (perform c w).2).
Proof.
  destruct c as [individual|variable|variable value|cfg now]; simpl.
  - pose proof (current_individual_same_setup individual w) as H.
    by destruct (current_individual individual w) as [[|] ?].
  - pose proof (set_output_variable_same_setup variable w) as H.
    by destruct (set_output_variable variable w) as [[|] ?].
  - unfold set_output_variable_for_runtime_variable.
    match goal with
    | |- context [set_output_variable ?v w] =>
        pose proof (set_output_variable_same_setup v w) as H;
        by destruct (set_output_variable v w) as [[|] ?]
    end.
  - pose proof (write_statistics_same_setup cfg now w) as H.
    by destruct (write_statistics cfg now w) as [[|] ?].
Qed.

Lemma run_same_setup (calls : list Call) :
  forall w, same_setup (self w) (self (run calls w).2).
Proof.
  induction calls as [|c calls IH]; intros w; simpl.
  - apply same_setup_refl.
  - pose proof (perform_same_setup c w) as Hc.
    destruct (perform c w) as [r w'].
    pose proof (IH w') as Hrest.
    destruct (run calls w') as [rs w'']. simpl in *.
    by eapply same_setup_trans.
Qed.

(** A collector without a best individual answers every [write_statistics]
    with [False]. *)
Lemma write_statistics_false (cfg : Configuration) (now : Z) (w : World) :
  _best_individual (self w) = None ->
  (write_statistics cfg now w).1 = Return false.
Proof.
  intros Hi. destruct (_backend (self w)) as [backend|] eqn:Hb.
  - by rewrite (write_statistics_without_individual cfg now w backend Hb Hi).
  - by rewrite (write_statistics_without_backend cfg now w Hb).
Qed.

Lemma run_write_statistics_false (calls : list Call) :
  forall w,
    _best_individual (self w) = None ->
    Forall2 (fun c r =>
               match c with
               | call_write_statistics _ _ => r = Return (Some false)
               | _ => True
               end)
      calls (run calls w).1.
Proof.
  induction calls as [|c calls IH]; intros w Hi; simpl.
  - constructor.
  - pose proof (perform_same_setup c w) as (_ & _ & _ & Hbest & _).
    assert (match c with
            | call_write_statistics _ _ =>
                (perform c w).1 = Return (Some false)
            | _ => True
            end) as Hc.
    { destruct c as [| | |cfg now]; [done..|]. simpl.
      pose proof (write_statistics_false cfg now w Hi) as Hw.
      destruct (write_statistics cfg now w) as [[b|e] w']; simpl in *;
        congruence. }
    destruct (perform c w) as [r w'].
    specialize (IH w'). destruct (run calls w') as [rs w'']. simpl in *.
    constructor; [by destruct c | apply IH; congruence].
Qed.

(** *** [__init__] *)

(** The collector as [__init__] leaves it. *)
Lemma init_world (cfg : Configuration) (now : Z) (w0 : World) :
  __init__ cfg now w0
  = (Return tt,
     {| self :=
          {| _backend := _initialise_backend cfg;
             _output_variables :=
               {["Random_Seed" :=
                   {| name := "Random_Seed"; value := seed cfg |}]};
             _variable_factories :=
               [("Length", _ChromosomeLengthOutputVariableFactory);
                ("Size", _ChromosomeSizeOutputVariableFactory);
                ("Coverage", _ChromosomeCoverageOutputVariableFactory);
                ("Fitness", _ChromosomeFitnessOutputVariableFactory)];
             _sequence_output_variable_factories :=
               [("CoverageTimeline",
                 new_sequence_factory _CoverageSequenceOutputVariableFactory
                   RuntimeVariable.CoverageTimeline);
                ("SizeTimeline",
                 new_sequence_factory _SizeSequenceOutputVariableFactory
                   RuntimeVariable.SizeTimeline);
                ("LengthTimeline",
                 new_sequence_factory _LengthSequenceOutputVariableFactory
                   RuntimeVariable.LengthTimeline);
                ("TotalExceptionsTimeline",
                 new_sequence_factory DirectSequenceOutputVariableFactory
                   RuntimeVariable.TotalExceptionsTimeline)];
             _start_time := now;
             _best_individual := None |};
        log := log w0;
        written := written w0 |}).
Proof. reflexivity. Qed.

Lemma init_registered (cfg : Configuration) (now : Z) (w0 : World) :
  registered (self (__init__ cfg now w0).2).
Proof. rewrite init_world. by split. Qed.

(** Whatever the calls, the registries stay as [__init__] has filled them. *)
Lemma run_registered (cfg : Configuration) (now : Z) (w0 : World)
    (calls : list Call) :
  registered (self (run calls (__init__ cfg now w0).2).2).
Proof.
  eapply registered_same_setup; [apply init_registered | apply run_same_setup].
Qed.

(** C2.  No method assigns [_best_individual] anything but the [None] of
    [__init__]: the constructor returns with [_best_individual] being
    [None], it is still [None] after any sequence of calls of
    [current_individual], [set_output_variable],
    [set_output_variable_for_runtime_variable] and [write_statistics], and
    every [write_statistics] among them returns [False], however many
    individuals have been reported. *)
Theorem best_individual_never_recorded (cfg : Configuration) (now : Z)
    (w0 : World) (calls : list Call) :
  (__init__ cfg now w0).1 = Return tt
  /\ _best_individual (self (__init__ cfg now w0).2) = None
  /\ _best_individual (self (run calls (__init__ cfg now w0).2).2) = None
  /\ Forall2 (fun c r =>
                match c with
                | call_write_statistics _ _ => r = Return (Some false)
                | _ => True
                end)
       calls (run calls (__init__ cfg now w0).2).1.
Proof.
  assert (_best_individual (self (__init__ cfg now w0).2) = None) as Hinit
    by by rewrite init_world.
  split; [by rewrite init_world|]. split; [done|]. split.
  - destruct (run_same_setup calls (__init__ cfg now w0).2)
      as (_ & _ & _ & Hbest & _).
    congruence.
  - by apply run_write_statistics_false.
Qed.

(** *** Sequence names and the flat map *)

Lemma set_output_variable_never_scalar (variable : OutputVariable)
    (w : World) :
  never_scalar (self w) ->
  never_scalar (self (set_output_variable variable w).2).
Proof.
  intros Hnever k Hk.
  rewrite (same_setup_keys _ _ (set_output_variable_same_setup variable w))
    in Hk.
  destruct (Dict.get (name variable)
              (_sequence_output_variable_factories (self w)))
    as [var|] eqn:Hget.
  - rewrite (set_output_variable_sequence w variable var Hget).
    destruct (isinstance_direct var); simpl; by apply Hnever.
  - rewrite (set_output_variable_scalar w variable Hget). simpl.
    rewrite lookup_insert_ne; [by apply Hnever|].
    intros <-. apply dict_get_keys in Hk as [? Hk]. congruence.
Qed.

Lemma current_individual_never_scalar (individual : Chromosome) (w : World) :
  never_scalar (self w) ->
  never_scalar (self (current_individual individual w).2).
Proof.
  intros Hnever.
  unfold current_individual. unfold mbind at 1. unfold M_bind, bind, get_self.
  destruct (_backend (self w)); [|done].
  destruct individual as [t|]; [|done].
  unfold mbind, M_bind, bind, emit.
  match goal with
  | |- context [for_each ?xs ?body ?w1] =>
      pose proof (for_each_invariant never_scalar body xs
                    (fun x w' => set_output_variable_never_scalar _ w')
                    w1 Hnever) as Hloop;
      destruct (for_each xs body w1) as [[[]|e] w2]
  end; simpl in *; [|done].
  intros k Hk. simpl in *. apply Hloop.
  unfold Dict.keys in *. rewrite map_map in Hk. exact Hk.
Qed.

Lemma write_statistics_never_scalar (cfg : Configuration) (now : Z)
    (w : World) :
  registered (self w) ->
  never_scalar (self w) ->
  never_scalar (self (write_statistics cfg now w).2).
Proof.
  intros Hreg Hnever.
  assert (never_scalar
            (with_output_variables (self w)
               (<["total_time" :=
                    {| name := "total_time";
                       value := VInt (now - _start_time (self w)) |}]>
                  (_output_variables (self w))))) as Hinsert.
  { intros k Hk. simpl in *. rewrite lookup_insert_ne; [by apply Hnever|].
    intros <-.
    destruct (registered_sequences _ Hreg) as (q1 & q2 & q3 & q4 & Hseq).
    rewrite Hseq in Hk. simpl in Hk. absurd_member Hk. }
  destruct (_backend (self w)) as [backend|] eqn:Hb.
  - destruct (_best_individual (self w)) as [individual|] eqn:Hi.
    + by destruct (write_statistics_with_individual cfg now w backend
                     individual Hb Hi) as (result & extra & _ & ->).
    + by rewrite (write_statistics_without_individual cfg now w backend Hb Hi).
  - by rewrite (write_statistics_without_backend cfg now w Hb).
Qed.

Lemma perform_never_scalar (c : Call) (w : World) :
  registered (self w) ->
  never_scalar (self w) ->
  never_scalar (self (perform c w).2).
Proof.
  intros Hreg Hnever.
  destruct c as [individual|variable|variable value|cfg now]; simpl.
  - pose proof (current_individual_never_scalar individual w Hnever) as H.
    by destruct (current_individual individual w) as [[|] ?].
  - pose proof (set_output_variable_never_scalar variable w Hnever) as H.
    by destruct (set_output_variable variable w) as [[|] ?].
  - unfold set_output_variable_for_runtime_variable.
    match goal with
    | |- context [set_output_variable ?v w] =>
        pose proof (set_output_variable_never_scalar v w Hnever) as H;
        by destruct (set_output_variable v w) as [[|] ?]
    end.
  - pose proof (write_statistics_never_scalar cfg now w Hreg Hnever) as H.
    by destruct (write_statistics cfg now w) as [[|] ?].
Qed.

Lemma run_never_scalar (calls : list Call) :
  forall w,
    registered (self w) ->
    never_scalar (self w) ->
    never_scalar (self (run calls w).2).
Proof.
  induction calls as [|c calls IH]; intros w Hreg Hnever; simpl; [done|].
  pose proof (perform_same_setup c w) as Hsame.
  pose proof (perform_never_scalar c w Hreg Hnever) as Hc.
  destruct (perform c w) as [r w'].
  specialize (IH w'). destruct (run calls w') as [rs w'']. simpl in *.
  apply IH; [by eapply registered_same_setup | done].
Qed.

(** Whatever the calls on a constructed collector, a sequence variable is
    never stored as a bare scalar: no name of a registered sequence is a key
    of the flat map. *)
Lemma sequence_variables_never_scalar (cfg : Configuration) (now : Z)
    (w0 : World) (calls : list Call) :
  never_scalar (self (run calls (__init__ cfg now w0).2).2).
Proof.
  apply run_never_scalar; [apply init_registered|].
  rewrite init_world. intros k Hk. simpl in *.
  rewrite lookup_singleton_ne; [done|]. intros <-. absurd_member Hk.
Qed.

End CollectorProperties.

(** ** Further properties of the collector *)

Section FurtherCollectorProperties.
Context {factories : SequenceFactoryModule}.

(** *** Helpers *)

Lemma current_individual_no_backend (individual : Chromosome) (w : World) :
  _backend (self w) = None ->
  current_individual individual w = (Return tt, w).
Proof. intros Hb. unfold current_individual. run_M. by rewrite Hb. Qed.

Lemma current_individual_other (w : World) b :
  _backend (self w) = Some b ->
  current_individual OtherChromosome w
  = (Return tt,
     logging w WARNING "SearchStatistics expected a TestSuiteChromosome").
Proof. intros Hb. unfold current_individual. run_M. by rewrite Hb. Qed.

(** The world after a test suite chromosome has been reported. *)
Lemma current_individual_suite (t : TestSuiteChromosome) (w : World) b :
  registered (self w) ->
  _backend (self w) = Some b ->
  current_individual (TestSuite t) w
  = (Return tt,
     {| self :=
          with_sequence_output_variable_factories
            (with_output_variables (self w)
               (reported t (_output_variables (self w))))
            (map (fun item => (item.1, update t item.2))
               (_sequence_output_variable_factories (self w)));
        log := log w ++
          [{| level := DEBUG; message := "Received individual" |}];
        written := written w |}).
Proof.
  intros Hreg Hb.
  destruct (registered_sequences _ Hreg) as (q1 & q2 & q3 & q4 & Hseq).
  destruct Hreg as [Hfact _].
  destruct w as [[backend direct fact seq start best] lg wr]; simpl in *.
  subst fact seq backend.
  unfold current_individual. run_M. reflexivity.
Qed.

(** On the registries of [__init__], [set_output_variable] fails under the
    three names of the sequences that are not direct ones, and only there. *)
Lemma set_output_variable_registered (variable : OutputVariable) (w : World) :
  registered (self w) ->
  (name variable ∈ plain_sequence_names ->
   set_output_variable variable w = (Raise AssertionError, w))
  /\ (name variable ∉ plain_sequence_names ->
      exists w',
        set_output_variable variable w = (Return tt, w')
        /\ log w' = log w /\ written w' = written w).
Proof.
  intros Hreg.
  destruct (registered_sequences _ Hreg) as (q1 & q2 & q3 & q4 & Hseq).
  destruct (Dict.get (name variable)
              (_sequence_output_variable_factories (self w)))
    as [var|] eqn:Hget.
  - rewrite (set_output_variable_sequence w variable var Hget).
    rewrite Hseq in Hget. simpl in Hget. unfold plain_sequence_names.
    repeat match type of Hget with
           | (if String.eqb ?a ?b then _ else _) = _ =>
               destruct (String.eqb_spec a b) as [Hname|?]
           end; try discriminate; injection Hget as <-; simpl;
      rewrite ?Hname.
    + split; [done|]. intros Hnot. exfalso. apply Hnot. by left.
    + split; [done|]. intros Hnot. exfalso. apply Hnot. right. by left.
    + split; [done|]. intros Hnot. exfalso. apply Hnot. do 2 right. by left.
    + split; [|by eauto]. intros Hin. absurd_member Hin.
  - rewrite (set_output_variable_scalar w variable Hget). split; [|by eauto].
    intros Hin. exfalso.
    assert (name variable
              ∈ Dict.keys (_sequence_output_variable_factories (self w)))
      as Hkey.
    { rewrite Hseq. simpl. unfold plain_sequence_names in Hin.
      repeat (apply elem_of_cons in Hin as [->|Hin];
              [repeat constructor|]).
      by apply elem_of_nil in Hin. }
    apply dict_get_keys in Hkey as [? Hkey]. congruence.
Qed.

Lemma perform_written (c : Call) (w : World) :
  registered (self w) ->
  _best_individual (self w) = None ->
  written (perform c w).2 = written w.
Proof.
  intros Hreg Hbest.
  assert (forall variable,
            written (set_output_variable variable w).2 = written w) as Hset.
  { intros variable.
    destruct (set_output_variable_registered variable w Hreg) as [Hin Hout].
    destruct (decide (name variable ∈ plain_sequence_names)) as [H|H].
    - by rewrite (Hin H).
    - by destruct (Hout H) as (w' & -> & _ & ?). }
  destruct c as [individual|variable|variable value|cfg now]; simpl.
  - destruct (_backend (self w)) as [b|] eqn:Hb.
    + destruct individual as [t|].
      * by rewrite (current_individual_suite t w b Hreg Hb).
      * by rewrite (current_individual_other w b Hb).
    + by rewrite (current_individual_no_backend individual w Hb).
  - specialize (Hset variable).
    by destruct (set_output_variable variable w) as [[|] ?].
  - unfold set_output_variable_for_runtime_variable.
    match goal with
    | |- context [set_output_variable ?v w] =>
        specialize (Hset v);
        by destruct (set_output_variable v w) as [[|] ?]
    end.
  - destruct (_backend (self w)) as [b|] eqn:Hb.
    + by rewrite (write_statistics_without_individual cfg now w b Hb Hbest).
    + by rewrite (write_statistics_without_backend cfg now w Hb).
Qed.

Lemma run_written (calls : list Call) :
  forall w,
    registered (self w) ->
    _best_individual (self w) = None ->
    written (run calls w).2 = written w.
Proof.
  induction calls as [|c calls IH]; intros w Hreg Hbest; simpl; [done|].
  pose proof (perform_same_setup c w) as Hsame.
  pose proof (perform_written c w Hreg Hbest) as Hc.
  destruct (perform c w) as [r w'].
  specialize (IH w'). destruct (run calls w') as [rs w'']. simpl in *.
  rewrite IH; [done | by eapply registered_same_setup |].
  destruct Hsame as (_ & _ & _ & -> & _). done.
Qed.

(** *** What holds after any calls on a constructed collector *)

(** X1.  Whatever calls are made on a constructed collector, none of the
    four names under which sequences are registered ever becomes a key of
    the flat map [_output_variables]. *)
Theorem sequence_names_stay_out_of_the_flat_map (cfg : Configuration)
    (now : Z) (w0 : World) (calls : list Call) :
  Forall (fun k =>
            _output_variables (self (run calls (__init__ cfg now w0).2).2) !! k
            = None)
    ["CoverageTimeline"; "SizeTimeline"; "LengthTimeline";
     "TotalExceptionsTimeline"].
Proof.
  pose proof (sequence_variables_never_scalar cfg now w0 calls) as Hnever.
  destruct (registered_sequences _ (run_registered cfg now w0 calls))
    as (q1 & q2 & q3 & q4 & Hseq).
  unfold never_scalar in Hnever. rewrite Hseq in Hnever. simpl in Hnever.
  repeat constructor; apply Hnever; repeat constructor.
Qed.

(** X2.  What [__init__] sets up stays: after any calls the backend is the
    one the configuration named at construction, the start time is the
    clock reading of the construction, and the chromosome factories and the
    sequence factories are registered under the same names, with the same
    classes. *)
Theorem setup_is_fixed_at_construction (cfg : Configuration) (now : Z)
    (w0 : World) (calls : list Call) :
  _backend (self (run calls (__init__ cfg now w0).2).2)
  = _initialise_backend cfg
  /\ _start_time (self (run calls (__init__ cfg now w0).2).2) = now
  /\ Dict.keys (_variable_factories (self (run calls (__init__ cfg now w0).2).2))
     = ["Length"; "Size"; "Coverage"; "Fitness"]
  /\ map (fun item => (item.1, class_of item.2))
       (_sequence_output_variable_factories
          (self (run calls (__init__ cfg now w0).2).2))
     = [("CoverageTimeline", _CoverageSequenceOutputVariableFactory);
        ("SizeTimeline", _SizeSequenceOutputVariableFactory);
        ("LengthTimeline", _LengthSequenceOutputVariableFactory);
        ("TotalExceptionsTimeline", DirectSequenceOutputVariableFactory)].
Proof.
  destruct (run_same_setup calls (__init__ cfg now w0).2)
    as (Hb & _ & Ht & _ & _).
  destruct (run_registered cfg now w0 calls) as [Hf Hs].
  rewrite Hb, Ht, Hf, Hs, init_world. done.
Qed.

(** X3.  On a constructed collector, after any calls, the only calls that
    raise are [set_output_variable] and
    [set_output_variable_for_runtime_variable] under [CoverageTimeline],
    [SizeTimeline] or [LengthTimeline]: they raise [AssertionError] and
    leave everything as it was.  Every other call returns. *)
Theorem only_plain_sequence_names_raise (cfg : Configuration) (now : Z)
    (w0 : World) (calls : list Call) (c : Call) :
  if sets_plain_sequence c then
    perform c (run calls (__init__ cfg now w0).2).2
    = (Raise AssertionError, (run calls (__init__ cfg now w0).2).2)
  else
    exists r w',
      perform c (run calls (__init__ cfg now w0).2).2 = (Return r, w').
Proof.
  pose proof (run_registered cfg now w0 calls) as Hreg.
  set (w := (run calls (__init__ cfg now w0).2).2) in *.
  destruct c as [individual|variable|variable value|cfg' now']; simpl.
  - destruct (_backend (self w)) as [b|] eqn:Hb.
    + destruct individual as [t|].
      * rewrite (current_individual_suite t w b Hreg Hb). by eauto.
      * rewrite (current_individual_other w b Hb). by eauto.
    + rewrite (current_individual_no_backend individual w Hb). by eauto.
  - destruct (set_output_variable_registered variable w Hreg) as [Hin Hout].
    case_bool_decide as H.
    + by rewrite (Hin H).
    + destruct (Hout H) as (w' & -> & _). by eauto.
  - unfold set_output_variable_for_runtime_variable.
    match goal with
    | |- context [set_output_variable ?v w] =>
        destruct (set_output_variable_registered v w Hreg) as [Hin Hout]
    end.
    simpl in *. case_bool_decide as H.
    + by rewrite (Hin H).
    + destruct (Hout H) as (w' & -> & _). by eauto.
  - destruct (_backend (self w)) as [b|] eqn:Hb.
    + destruct (_best_individual (self w)) as [individual|] eqn:Hi.
      * destruct (write_statistics_with_individual cfg' now' w b individual
                    Hb Hi) as (result & extra & _ & ->).
        by eauto.
      * rewrite (write_statistics_without_individual cfg' now' w b Hb Hi).
        by eauto.
    + rewrite (write_statistics_without_backend cfg' now' w Hb). by eauto.
Qed.

(** X4.  On a constructed collector no sequence of calls ever hands anything
    to the backend: the list of the mappings passed to [write_data] stays
    what it was before the construction. *)
Theorem backend_never_receives_data (cfg : Configuration) (now : Z)
    (w0 : World) (calls : list Call) :
  written (run calls (__init__ cfg now w0).2).2 = written w0.
Proof.
  rewrite run_written.
  - by rewrite init_world.
  - apply init_registered.
  - by rewrite init_world.
Qed.

(** *** More on [_get_output_variables] *)

Lemma logging_changes_the_world (w : World) l msg : logging w l msg <> w.
Proof.
  intros Heq. apply (f_equal log) in Heq. simpl in Heq.
  apply (f_equal (@List.length LogRecord)) in Heq.
  rewrite length_app in Heq. simpl in Heq. lia.
Qed.

(** The loop either runs to its end without a trace in the world, or it
    leaves over the first name that no source knows. *)
Lemma get_output_variables_loop_outcome individual skip_missing (w : World)
    names :
  forall variables,
    (exists result,
       _get_output_variables_loop individual skip_missing names variables w
       = (Return result, w))
    \/ (skip_missing = false
        /\ exists m,
             m ∈ names /\ unresolvable (self w) m
             /\ _get_output_variables_loop individual skip_missing names
                  variables w
                = (Return ∅,
                   logging w ERROR
                     ("No obtained value for output variable " +:+ m))).
Proof.
  induction names as [|h names IH]; intros variables; simpl.
  - left. by eexists.
  - unfold mbind, M_bind, bind.
    rewrite get_output_variables_body_resolution.
    pose proof (resolving_source_cases (self w) h) as Hcases.
    destruct (resolving_source (self w) h) as [src|].
    + destruct (IH (store_all (contribution (self w) individual h src)
                      variables)) as [?|(? & m & ? & ? & ?)]; [by left|].
      right. split; [done|]. exists m. split; [by right | done].
    + destruct skip_missing.
      * destruct (IH (<[h := {| name := h; value := VStr "" |}]> variables))
          as [?|(? & _)]; [by left | done].
      * right. split; [done|]. exists h. split; [by left | done].
Qed.

Lemma store_all_is_Some_inv items (variables : gmap string OutputVariable) k :
  is_Some (store_all items variables !! k) ->
  is_Some (variables !! k) \/ k ∈ map fst items.
Proof.
  unfold store_all. revert variables.
  induction items as [|[k' v] items IH]; intros variables Hk; simpl in *;
    [by left|].
  destruct (IH _ Hk) as [Hins|Hin]; [|right; by right].
  destruct (decide (k' = k)) as [->|Hne]; [right; by left|].
  rewrite lookup_insert_ne in Hins by done. by left.
Qed.

Lemma store_all_covers items (variables : gmap string OutputVariable) k :
  k ∈ map fst items -> is_Some (store_all items variables !! k).
Proof.
  unfold store_all. revert variables.
  induction items as [|[k' v] items IH]; intros variables Hk; simpl in *.
  - by apply elem_of_nil in Hk.
  - destruct (decide (k ∈ map fst items)) as [Hin|Hnot]; [by apply IH|].
    apply elem_of_cons in Hk as [->|?]; [|done].
    rewrite (store_all_lookup_ne items _ k' Hnot).
    rewrite lookup_insert_eq. by eauto.
Qed.

(** The keys that a source contributes for a name. *)
Lemma contribution_keys (s : SearchStatistics) individual n src k :
  k ∈ map fst (contribution s individual n src) ->
  k = n
  \/ exists q var,
       Dict.get n (_sequence_output_variable_factories s) = Some q
       /\ var ∈ get_output_variables q /\ name var = k.
Proof.
  destruct src; simpl.
  - destruct (_output_variables s !! n); simpl;
      [intros ->%list_elem_of_singleton; by left | by intros ?%elem_of_nil].
  - destruct (Dict.get n (_variable_factories s)); simpl;
      [intros ->%list_elem_of_singleton; by left | by intros ?%elem_of_nil].
  - destruct (Dict.get n (_sequence_output_variable_factories s)) as [q|];
      simpl; [|by intros ?%elem_of_nil].
    rewrite map_map. simpl.
    intros (var & -> & Hvar)%list_elem_of_fmap. right. by exists q, var.
Qed.

Lemma get_output_variables_loop_keys individual skip_missing (w : World)
    names :
  forall variables result w',
    _get_output_variables_loop individual skip_missing names variables w
    = (Return result, w') ->
    forall k,
      is_Some (result !! k) ->
      is_Some (variables !! k)
      \/ k ∈ names
      \/ exists m q var,
           m ∈ names
           /\ Dict.get m (_sequence_output_variable_factories (self w))
              = Some q
           /\ var ∈ get_output_variables q
           /\ name var = k.
Proof.
  induction names as [|h names IH]; intros variables result w' Heq k Hk;
    simpl in Heq.
  - injection Heq as <- _. by left.
  - unfold mbind, M_bind, bind in Heq.
    rewrite get_output_variables_body_resolution in Heq.
    assert (forall variables',
              _get_output_variables_loop individual skip_missing names
                variables' w = (Return result, w') ->
              is_Some (variables' !! k)
              \/ k ∈ h :: names
              \/ exists m q var,
                   m ∈ h :: names
                   /\ Dict.get m
                        (_sequence_output_variable_factories (self w))
                      = Some q
                   /\ var ∈ get_output_variables q
                   /\ name var = k) as Hrest.
    { intros variables' Heq'.
      destruct (IH variables' result w' Heq' k Hk)
        as [?|[?|(m & q & var & ? & ?)]]; [by left | right; left; by right |].
      right; right. exists m, q, var. split; [by right | done]. }
    destruct (resolving_source (self w) h) as [src|].
    + destruct (Hrest _ Heq) as [Hstore|?]; [|by right].
      apply store_all_is_Some_inv in Hstore as [?|Hin]; [by left|].
      apply contribution_keys in Hin as [->|(q & var & ? & ? & ?)].
      * right; left. by left.
      * right; right. exists h, q, var. split; [by left | done].
    + destruct skip_missing.
      * destruct (Hrest _ Heq) as [Hins|?]; [|by right].
        destruct (decide (h = k)) as [->|Hne]; [right; left; by left|].
        rewrite lookup_insert_ne in Hins by done. by left.
      * injection Heq as <- _. rewrite lookup_empty in Hk.
        by destruct Hk.
Qed.

Lemma get_output_variables_loop_covers individual skip_missing (w : World)
    names :
  forall variables result,
    _get_output_variables_loop individual skip_missing names variables w
    = (Return result, w) ->
    (forall k, is_Some (variables !! k) -> is_Some (result !! k))
    /\ forall n,
         n ∈ names ->
         match resolving_source (self w) n with
         | Some SequenceFactory =>
             forall q var,
               Dict.get n (_sequence_output_variable_factories (self w))
               = Some q ->
               var ∈ get_output_variables q ->
               is_Some (result !! name var)
         | _ => is_Some (result !! n)
         end.
Proof.
  induction names as [|h names IH]; intros variables result Heq;
    simpl in Heq.
  - injection Heq as <-. split; [done|]. by intros n ?%elem_of_nil.
  - unfold mbind, M_bind, bind in Heq.
    rewrite get_output_variables_body_resolution in Heq.
    pose proof (resolving_source_cases (self w) h) as Hcases.
    destruct (resolving_source (self w) h) as [src|] eqn:Hsrc.
    + destruct (IH _ _ Heq) as [Hmono Hnames]. split.
      * intros k Hk. by apply Hmono, store_all_is_Some.
      * intros n [->|Hn]%elem_of_cons; [|by apply Hnames].
        rewrite Hsrc.
        destruct src; simpl in *.
        -- destruct Hcases as [d Hd]. apply Hmono. rewrite Hd.
           unfold store_all. simpl. rewrite lookup_insert_eq. by eauto.
        -- destruct Hcases as [_ [f Hf]]. apply Hmono. rewrite Hf.
           unfold store_all. simpl. rewrite lookup_insert_eq. by eauto.
        -- intros q var Hq Hvar. apply Hmono. rewrite Hq.
           apply store_all_covers. rewrite map_map. simpl.
           apply list_elem_of_fmap. by exists var.
    + destruct skip_missing.
      * destruct (IH _ _ Heq) as [Hmono Hnames]. split.
        -- intros k Hk. apply Hmono.
           destruct (decide (h = k)) as [->|Hne].
           ++ rewrite lookup_insert_eq. by eauto.
           ++ by rewrite lookup_insert_ne.
        -- intros n [->|Hn]%elem_of_cons; [|by apply Hnames].
           rewrite Hsrc. apply Hmono. rewrite lookup_insert_eq. by eauto.
      * injection Heq as _ Hw. by apply logging_changes_the_world in Hw.
Qed.

(** X5.  [_get_output_variables] never raises and never changes the
    collector or what the backend has received.  It either returns leaving
    no trace at all, or, without [skip_missing], returns the empty mapping
    after logging exactly one error, for a requested name that no source
    knows. *)
Theorem get_output_variables_only_reads (cfg : Configuration)
    (individual : TestSuiteChromosome) (skip_missing : bool) (w : World) :
  (exists result,
     _get_output_variables cfg individual skip_missing w = (Return result, w))
  \/ (skip_missing = false
      /\ exists m,
           m ∈ _get_output_variable_names cfg
           /\ unresolvable (self w) m
           /\ _get_output_variables cfg individual skip_missing w
              = (Return ∅,
                 {| self := self w;
                    log := log w ++
                      [{| level := ERROR;
                          message :=
                            "No obtained value for output variable " +:+ m |}];
                    written := written w |})).
Proof. apply get_output_variables_loop_outcome. Qed.

(** X6.  [_get_output_variables] does not invent names: every key of the
    mapping it returns is a requested name, or the name of a variable that
    a requested, registered sequence expands to. *)
Theorem get_output_variables_keys_are_requested (cfg : Configuration)
    (individual : TestSuiteChromosome) (skip_missing : bool) (w w' : World)
    (result : gmap string OutputVariable) (k : string) :
  _get_output_variables cfg individual skip_missing w = (Return result, w') ->
  is_Some (result !! k) ->
  k ∈ _get_output_variable_names cfg
  \/ exists m q var,
       m ∈ _get_output_variable_names cfg
       /\ Dict.get m (_sequence_output_variable_factories (self w)) = Some q
       /\ var ∈ get_output_variables q
       /\ name var = k.
Proof.
  intros Heq Hk.
  destruct (get_output_variables_loop_keys individual skip_missing w _ _ _ _
              Heq k Hk) as [Hempty|?]; [|done].
  rewrite lookup_empty in Hempty. by destruct Hempty.
Qed.

(** X7.  When [_get_output_variables] returns without having logged an
    error, every requested name is covered: a name that the flat map or a
    chromosome factory knows, or that no source knows (under
    [skip_missing]), is a key of the returned mapping, and for a name
    resolved by a sequence factory every variable of the expansion is. *)
Theorem get_output_variables_covers_requested_names (cfg : Configuration)
    (individual : TestSuiteChromosome) (skip_missing : bool) (w : World)
    (result : gmap string OutputVariable) (n : string) :
  _get_output_variables cfg individual skip_missing w = (Return result, w) ->
  n ∈ _get_output_variable_names cfg ->
  match resolving_source (self w) n with
  | Some SequenceFactory =>
      forall q var,
        Dict.get n (_sequence_output_variable_factories (self w)) = Some q ->
        var ∈ get_output_variables q ->
        is_Some (result !! name var)
  | _ => is_Some (result !! n)
  end.
Proof.
  intros Heq Hn.
  by apply (get_output_variables_loop_covers individual skip_missing w _ _ _
              Heq).
Qed.

(** *** Reporting individuals *)

Lemma reported_reported (t1 t2 : TestSuiteChromosome)
    (m : gmap string OutputVariable) :
  reported t2 (reported t1 m) = reported t2 m.
Proof.
  apply map_eq. intros k. unfold reported.
  rewrite !lookup_insert. by repeat case_decide.
Qed.

Lemma reported_lookup (t : TestSuiteChromosome)
    (m : gmap string OutputVariable) n f :
  Dict.get n
    [("Length", _ChromosomeLengthOutputVariableFactory);
     ("Size", _ChromosomeSizeOutputVariableFactory);
     ("Coverage", _ChromosomeCoverageOutputVariableFactory);
     ("Fitness", _ChromosomeFitnessOutputVariableFactory)] = Some f ->
  reported t m !! n = Some (get_variable f t).
Proof.
  simpl. intros Hget.
  repeat match type of Hget with
         | (if String.eqb ?a ?b then _ else _) = _ =>
             destruct (String.eqb_spec a b) as [->|?]
         end; try discriminate; injection Hget as <-; unfold reported;
    repeat (rewrite lookup_insert_ne by discriminate);
    by rewrite lookup_insert_eq.
Qed.

(** X8.  With a backend, reporting a second test suite chromosome replaces
    the scalars of the first (the flat map is the same as if only the second
    had been reported), while every sequence factory has been updated with
    both, in the order of the reports. *)
Theorem scalars_replace_and_sequences_accumulate (w : World)
    (t1 t2 : TestSuiteChromosome) (b : AbstractStatisticsBackend) :
  registered (self w) ->
  _backend (self w) = Some b ->
  _output_variables
    (self (current_individual (TestSuite t2)
             (current_individual (TestSuite t1) w).2).2)
  = _output_variables (self (current_individual (TestSuite t2) w).2)
  /\ _sequence_output_variable_factories
       (self (current_individual (TestSuite t2)
                (current_individual (TestSuite t1) w).2).2)
     = map (fun item => (item.1, update t2 (update t1 item.2)))
         (_sequence_output_variable_factories (self w)).
Proof.
  intros Hreg Hb.
  pose proof (current_individual_same_setup (TestSuite t1) w) as Hsame.
  pose proof (registered_same_setup _ _ Hreg Hsame) as Hreg1.
  destruct Hsame as (Hb1 & _). rewrite Hb in Hb1.
  rewrite (current_individual_suite t2 _ b Hreg1 Hb1).
  rewrite (current_individual_suite t2 w b Hreg Hb).
  rewrite (current_individual_suite t1 w b Hreg Hb). simpl.
  split; [apply reported_reported|]. by rewrite map_map.
Qed.

(** X9.  With a backend, after a test suite chromosome has been reported,
    the scalar under [Length], [Size] and [Coverage] holds the very value
    with which the sequence factory under [LengthTimeline], [SizeTimeline]
    and [CoverageTimeline] has been updated. *)
Theorem scalar_and_timeline_agree (w : World) (t : TestSuiteChromosome)
    (b : AbstractStatisticsBackend) :
  registered (self w) ->
  _backend (self w) = Some b ->
  Forall (fun pair =>
            exists x var,
              _output_variables
                (self (current_individual (TestSuite t) w).2) !! pair.1
              = Some {| name := pair.1; value := x |}
              /\ Dict.get pair.2 (_sequence_output_variable_factories (self w))
                 = Some var
              /\ Dict.get pair.2
                   (_sequence_output_variable_factories
                      (self (current_individual (TestSuite t) w).2))
                 = Some {| class_of := class_of var;
                           state_of := sequence_update x (state_of var) |})
    [("Length", "LengthTimeline"); ("Size", "SizeTimeline");
     ("Coverage", "CoverageTimeline")].
Proof.
  intros Hreg Hb.
  rewrite (current_individual_suite t w b Hreg Hb). simpl.
  destruct (registered_sequences _ Hreg) as (q1 & q2 & q3 & q4 & ->).
  repeat constructor; simpl.
  - eexists _, _.
    split; [exact (reported_lookup t _ "Length" _ eq_refl)|].
    split; reflexivity.
  - eexists _, _.
    split; [exact (reported_lookup t _ "Size" _ eq_refl)|].
    split; reflexivity.
  - eexists _, _.
    split; [exact (reported_lookup t _ "Coverage" _ eq_refl)|].
    split; reflexivity.
Qed.

(** X10.  With a backend, once a test suite chromosome has been reported,
    the names of the chromosome factories resolve to the values of that
    reported chromosome, whichever individual [_get_output_variables] is
    given: the scalars stored by [current_individual] come first. *)
Theorem reported_individual_shadows_the_factories (w : World)
    (t individual : TestSuiteChromosome) (b : AbstractStatisticsBackend)
    (skip_missing : bool) (variables : gmap string OutputVariable)
    (n : string) (f : ChromosomeOutputVariableFactory) :
  registered (self w) ->
  _backend (self w) = Some b ->
  Dict.get n (_variable_factories (self w)) = Some f ->
  _get_output_variables_body individual skip_missing variables n
    (current_individual (TestSuite t) w).2
  = (Return (Next (<[n := get_variable f t]> variables)),
     (current_individual (TestSuite t) w).2).
Proof.
  intros Hreg Hb Hf.
  rewrite (current_individual_suite t w b Hreg Hb). simpl.
  destruct Hreg as [Hfact _]. rewrite Hfact in Hf.
  pose proof (reported_lookup t (_output_variables (self w)) n f Hf) as Hd.
  rewrite get_output_variables_body_resolution. simpl.
  rewrite (resolving_source_direct _ _ (get_variable f t)) by done.
  unfold contribution, store_all. simpl. by rewrite Hd.
Qed.

(** *** Setting and writing *)

(** X11.  Under a name that is not registered as a sequence,
    [set_output_variable] returns, logs nothing, and changes the flat map
    at that name only; the property [output_variables] then holds the
    variable under the name, and the name resolves to it whatever the
    factories know. *)
Theorem set_output_variable_round_trip (variable : OutputVariable)
    (w : World) :
  name variable ∉ Dict.keys (_sequence_output_variable_factories (self w)) ->
  exists w',
    set_output_variable variable w = (Return tt, w')
    /\ output_variables_property w'
       = (Return (<[name variable := variable]> (_output_variables (self w))),
          w')
    /\ (forall individual skip_missing variables,
          _get_output_variables_body individual skip_missing variables
            (name variable) w'
          = (Return (Next (<[name variable := variable]> variables)), w'))
    /\ _sequence_output_variable_factories (self w')
       = _sequence_output_variable_factories (self w)
    /\ log w' = log w
    /\ written w' = written w.
Proof.
  intros Hkey.
  assert (Dict.get (name variable)
            (_sequence_output_variable_factories (self w)) = None) as Hget.
  { apply eq_None_not_Some. by rewrite <- dict_get_keys. }
  eexists. split; [by apply set_output_variable_scalar|].
  split; [done|]. split; [|done].
  intros individual skip_missing variables.
  rewrite get_output_variables_body_resolution. simpl.
  rewrite (resolving_source_direct _ _ variable)
    by (simpl; apply lookup_insert_eq).
  unfold contribution, store_all. simpl. by rewrite lookup_insert_eq.
Qed.

(** X12.  [write_statistics] on a constructed collector, after any calls:
    with a backend it stores under [total_time] the time elapsed since the
    construction, replacing what the name held, and changes no other entry
    of the flat map; without a backend it leaves the collector as it is. *)
Theorem total_time_counts_from_construction (cfg cfg1 : Configuration)
    (now0 now1 : Z) (w0 : World) (calls : list Call) :
  match _initialise_backend cfg with
  | Some _ =>
      _output_variables
        (self (write_statistics cfg1 now1
                 (run calls (__init__ cfg now0 w0).2).2).2)
      = <["total_time" :=
            {| name := "total_time"; value := VInt (now1 - now0) |}]>
          (_output_variables (self (run calls (__init__ cfg now0 w0).2).2))
  | None =>
      self (write_statistics cfg1 now1
              (run calls (__init__ cfg now0 w0).2).2).2
      = self (run calls (__init__ cfg now0 w0).2).2
  end.
Proof.
  assert (_backend (self (__init__ cfg now0 w0).2) = _initialise_backend cfg
          /\ _start_time (self (__init__ cfg now0 w0).2) = now0
          /\ _best_individual (self (__init__ cfg now0 w0).2) = None)
    as (Hb0 & Ht0 & Hi0) by by rewrite init_world.
  destruct (run_same_setup calls (__init__ cfg now0 w0).2)
    as (Hb & _ & Ht & Hi & _).
  rewrite Hb0 in Hb. rewrite Ht0 in Ht. rewrite Hi0 in Hi.
  set (w := (run calls (__init__ cfg now0 w0).2).2) in *.
  destruct (_initialise_backend cfg) as [b|].
  - rewrite (write_statistics_without_individual cfg1 now1 w b Hb Hi).
    simpl. by rewrite Ht.
  - by rewrite (write_statistics_without_backend cfg1 now1 w Hb).
Qed.

(** X13.  With a backend and a best individual, when every requested name
    is [total_time] or known to one of the three sources,
    [write_statistics] returns [True], logs its one information record, and
    hands exactly one mapping to the backend; every requested name that the
    flat map or a chromosome factory knows is a key of it, and so is
    [total_time] when requested. *)
Theorem write_statistics_success (cfg : Configuration) (now : Z) (w : World)
    (b : AbstractStatisticsBackend) (individual : TestSuiteChromosome) :
  _backend (self w) = Some b ->
  _best_individual (self w) = Some individual ->
  (forall n, n ∈ _get_output_variable_names cfg ->
             n = "total_time" \/ ~ unresolvable (self w) n) ->
  exists result w',
    write_statistics cfg now w = (Return true, w')
    /\ written w' = written w ++ [result]
    /\ log w' = log w ++ [{| level := INFO; message := "Writing statistics" |}]
    /\ forall n,
         n ∈ _get_output_variable_names cfg ->
         n = "total_time"
         \/ is_Some (_output_variables (self w) !! n)
         \/ is_Some (Dict.get n (_variable_factories (self w))) ->
         is_Some (result !! n).
Proof.
  intros Hb Hi Hall.
  destruct (write_statistics_with_individual cfg now w b individual Hb Hi)
    as (result & extra & Hget & Hwrite).
  set (w1 := {| self := with_output_variables (self w)
                          (<["total_time" :=
                               {| name := "total_time";
                                  value := VInt (now - _start_time (self w))
                               |}]>
                             (_output_variables (self w)));
                log := log w ++
                  [{| level := INFO; message := "Writing statistics" |}];
                written := written w |}) in *.
  destruct (get_output_variables_loop_outcome individual false w1
              (_get_output_variable_names cfg) ∅)
    as [[result' Heq]|(_ & m & Hm & (Hd & Hf & Hs) & _)].
  - unfold _get_output_variables in Hget. rewrite Heq in Hget.
    injection Hget as <- Hlog.
    assert (extra = []) as ->.
    { rewrite <- (app_nil_r (log w ++ _)) in Hlog at 1.
      by apply app_inv_head in Hlog. }
    eexists result', _. split; [exact Hwrite|]. simpl.
    split; [done|]. split; [by rewrite app_nil_r|].
    intros n Hn Hknown.
    pose proof (proj2 (get_output_variables_loop_covers individual false w1
                         _ _ _ Heq) n Hn) as Hcov.
    pose proof (resolving_source_cases (self w1) n) as Hcases.
    destruct (resolving_source (self w1) n) as [[| |]|]; try done.
    exfalso. destruct Hcases as (Hd & Hf & _). simpl in Hd, Hf.
    destruct Hknown as [->|[[d Hdn]|[f Hfn]]].
    + by rewrite lookup_insert_eq in Hd.
    + destruct (decide ("total_time" = n)) as [<-|Hne].
      * by rewrite lookup_insert_eq in Hd.
      * rewrite lookup_insert_ne in Hd by done. congruence.
    + congruence.
  - exfalso. simpl in Hd, Hf, Hs.
    destruct (Hall m Hm) as [->|Hres].
    + by rewrite lookup_insert_eq in Hd.
    + apply Hres. repeat split; [|done..].
      destruct (decide ("total_time" = m)) as [<-|Hne].
      * by rewrite lookup_insert_eq in Hd.
      * by rewrite lookup_insert_ne in Hd.
Qed.

(** X14.  Without a backend, [current_individual] and [write_statistics]
    do nothing to the collector: after any sequence of such calls the
    collector is what it was, nothing has reached a backend, every
    [current_individual] has returned and every [write_statistics] has
    returned [False]. *)
Theorem inert_without_backend (w : World) (calls : list Call) :
  _backend (self w) = None ->
  forallb reports_or_writes calls = true ->
  self (run calls w).2 = self w
  /\ written (run calls w).2 = written w
  /\ Forall2 (fun c r =>
                match c with
                | call_write_statistics _ _ => r = Return (Some false)
                | _ => r = Return None
                end)
       calls (run calls w).1.
Proof.
  intros Hb. revert w Hb.
  induction calls as [|c calls IH]; intros w Hb Hcalls; simpl in *.
  - by repeat split.
  - apply andb_prop in Hcalls as [Hc Hcalls].
    assert (exists r w',
              perform c w = (r, w')
              /\ self w' = self w /\ written w' = written w
              /\ match c with
                 | call_write_statistics _ _ => r = Return (Some false)
                 | _ => r = Return None
                 end) as (r & w' & Hperform & Hself & Hwritten & Hr).
    { destruct c as [individual| | |cfg now]; try discriminate; simpl.
      - rewrite (current_individual_no_backend individual w Hb). by eauto 6.
      - rewrite (write_statistics_without_backend cfg now w Hb). by eauto 6. }
    rewrite Hperform.
    assert (_backend (self w') = None) as Hb' by by rewrite Hself.
    destruct (IH w' Hb' Hcalls) as (Hself' & Hwritten' & Hrs).
    destruct (run calls w') as [rs w'']. simpl in *.
    split; [congruence|]. split; [congruence|]. by constructor.
Qed.

End FurtherCollectorProperties.

(** ** Further properties of the requested names *)

Lemma split_without_separator sep p :
  PyStr.all_chars (fun c => negb (Ascii.eqb c sep)) p = true ->
  PyStr.split sep p = [p].
Proof.
  induction p as [|c r IH]; simpl; [done|].
  intros [Hc Hr]%andb_prop. apply negb_true_iff in Hc. rewrite Hc.
  by rewrite (IH Hr).
Qed.

Lemma split_app_separator sep p s :
  PyStr.all_chars (fun c => negb (Ascii.eqb c sep)) p = true ->
  PyStr.split sep (p +:+ String sep s) = p :: PyStr.split sep s.
Proof.
  induction p as [|c r IH]; intros Hp.
  - change (PyStr.split sep (String sep s) = "" :: PyStr.split sep s).
    simpl. by rewrite Ascii.eqb_refl.
  - simpl in Hp. apply andb_prop in Hp as [Hc Hr].
    apply negb_true_iff in Hc.
    change (PyStr.split sep (String c (r +:+ String sep s))
            = String c r :: PyStr.split sep s).
    simpl. rewrite Hc. by rewrite (IH Hr).
Qed.

(** Splitting what [join] has joined gives the pieces back, when there is a
    piece and no piece contains the separator. *)
Lemma split_join sep pieces :
  pieces <> [] ->
  Forall (fun p => PyStr.all_chars (fun c => negb (Ascii.eqb c sep)) p = true)
    pieces ->
  PyStr.split sep (PyStr.join sep pieces) = pieces.
Proof.
  induction pieces as [|p [|q rest] IH]; intros Hne Hall; [done| |].
  - simpl. apply split_without_separator. by inversion Hall.
  - inversion Hall as [|? ? Hp Hrest]; subst.
    change (PyStr.join sep (p :: q :: rest))
      with (p +:+ String sep (PyStr.join sep (q :: rest))).
    rewrite split_app_separator by done. by rewrite IH.
Qed.

Lemma all_chars_lstrip p s :
  PyStr.all_chars p s = true -> PyStr.all_chars p (PyStr.lstrip s) = true.
Proof.
  induction s as [|c r IH]; simpl; [done|].
  intros [Hc Hr]%andb_prop.
  destruct (PyStr.is_space c); [by apply IH|]. simpl. by rewrite Hc, Hr.
Qed.

Lemma all_chars_rstrip p s :
  PyStr.all_chars p s = true -> PyStr.all_chars p (PyStr.rstrip s) = true.
Proof.
  induction s as [|c r IH]; simpl; [done|].
  intros [Hc Hr]%andb_prop. specialize (IH Hr).
  destruct (PyStr.rstrip r) as [|c' r'].
  - destruct (PyStr.is_space c); simpl; by rewrite ?Hc.
  - simpl in *. by rewrite Hc, IH.
Qed.

Lemma lstrip_fixed s :
  (PyStr.is_space <$> PyStr.first_char s) <> Some true -> PyStr.lstrip s = s.
Proof.
  destruct s as [|c r]; simpl; [done|].
  by destruct (PyStr.is_space c).
Qed.

Lemma rstrip_fixed s :
  (PyStr.is_space <$> PyStr.last_char s) <> Some true -> PyStr.rstrip s = s.
Proof.
  induction s as [|c r IH]; [done|].
  destruct r as [|c' r'].
  - simpl. by destruct (PyStr.is_space c).
  - intros Hlast.
    change (PyStr.last_char (String c (String c' r')))
      with (PyStr.last_char (String c' r')) in Hlast.
    specialize (IH Hlast).
    change (PyStr.rstrip (String c (String c' r')))
      with (match PyStr.rstrip (String c' r') with
            | EmptyString =>
                if PyStr.is_space c then EmptyString else String c EmptyString
            | r'' => String c r''
            end).
    by rewrite IH.
Qed.

Lemma strip_strip s : PyStr.strip (PyStr.strip s) = PyStr.strip s.
Proof.
  destruct (strip_spec s) as (l & r & _ & _ & _ & Hfirst & Hlast).
  unfold PyStr.strip at 1.
  by rewrite (lstrip_fixed _ Hfirst), (rstrip_fixed _ Hlast).
Qed.

(** X15.  A list of names without commas and without whitespace around
    them, written as a comma-separated list that is not the empty string,
    is read back by [_get_output_variable_names] as it is. *)
Theorem output_variable_names_round_trip (cfg : Configuration)
    (names : list string) :
  Forall plain_name names ->
  PyStr.join ","%char names <> "" ->
  output_variables cfg = PyStr.join ","%char names ->
  _get_output_variable_names cfg = names.
Proof.
  intros Hplain Hne Hcfg.
  unfold _get_output_variable_names. rewrite Hcfg.
  destruct (PyStr.join ","%char names) as [|c r] eqn:Hjoin; [done|].
  rewrite fold_left_snoc_map, <- Hjoin. simpl.
  rewrite split_join.
  - clear Hne Hcfg Hjoin.
    induction Hplain as [|n names [_ Hn] _ IH]; simpl; [done|].
    by rewrite Hn, IH.
  - by intros ->.
  - eapply Forall_impl; [exact Hplain|]. by intros n [? _].
Qed.

(** X16.  [_get_output_variable_names] never returns the empty list, and no
    name it returns contains a comma or has whitespace around it. *)
Theorem output_variable_names_are_plain (cfg : Configuration) :
  _get_output_variable_names cfg <> []
  /\ Forall plain_name (_get_output_variable_names cfg).
Proof.
  unfold _get_output_variable_names.
  destruct (output_variables cfg) as [|c r] eqn:Hcfg.
  - split; [done|]. repeat constructor.
  - rewrite fold_left_snoc_map.
    pose proof (split_not_nil ","%char (String c r)) as Hnil.
    pose proof (split_no_separator ","%char (String c r)) as Hsep.
    revert Hnil Hsep.
    generalize (PyStr.split ","%char (String c r)). intros entries Hnil Hsep.
    rewrite app_nil_l. split.
    + by destruct entries.
    + clear Hnil.
      induction Hsep as [|e es He _ IH]; simpl; constructor; [|done].
      split; [|apply strip_strip].
      unfold PyStr.strip. by apply all_chars_rstrip, all_chars_lstrip.
Qed.

(** ** Properties of the calculator *)

Section CalculatorProperties.
Context {number exception : Type}.
Variable py_add py_sub py_mul py_truediv :
  number -> number -> Calculator.Outcome number exception.
Variable py_str : number -> string.
Variable py_upper : string -> string.
Import Calculator.

(** A call that returns adds one record and one to the counter; a call
    that raises changes nothing. *)
Lemma call_outcome (m : Method) (a b : number) (cls : Class) :
  call py_add py_sub py_mul py_truediv m a b cls
  = match operator py_add py_sub py_mul py_truediv m a b with
    | Returns result =>
        (Returns result,
         {| amount_calculation := amount_calculation cls + 1;
            results := results cls ++
              [{| last_op := method_name m; last_result := result |}] |})
    | Raises e => (Raises e, cls)
    end.
Proof. by destruct m. Qed.

Lemma run_outcome (calls : list (Method * number * number)) :
  forall cls,
    (run py_add py_sub py_mul py_truediv calls cls).1
    = map (fun c => operator py_add py_sub py_mul py_truediv c.1.1 c.1.2 c.2)
        calls
    /\ results (run py_add py_sub py_mul py_truediv calls cls).2
       = results cls ++ records py_add py_sub py_mul py_truediv calls
    /\ amount_calculation (run py_add py_sub py_mul py_truediv calls cls).2
       = amount_calculation cls
         + Z.of_nat
             (List.length (records py_add py_sub py_mul py_truediv calls)).
Proof.
  induction calls as [|[[m a] b] calls IH]; intros cls; simpl.
  - rewrite app_nil_r. repeat split. lia.
  - rewrite call_outcome.
    destruct (operator py_add py_sub py_mul py_truediv m a b) as [result|e].
    + match goal with
      | |- context [run _ _ _ _ calls ?c] =>
          destruct (IH c) as (Houts & Hres & Hcount);
          destruct (run py_add py_sub py_mul py_truediv calls c)
            as [outs cls']
      end.
      simpl in *. rewrite Houts, Hres, Hcount, <- app_assoc. simpl.
      repeat split. lia.
    + destruct (IH cls) as (Houts & Hres & Hcount).
      destruct (run py_add py_sub py_mul py_truediv calls cls)
        as [outs cls'].
      simpl in *. by rewrite Houts, Hres, Hcount.
Qed.

(** X17.  Whatever calls of [add], [sub], [mult] and [div] are made, on
    whichever instances: each call returns or raises what Python's operator
    does; the class-wide list [results] grows by the records of the calls
    that return, in their order, each with the name of the method and the
    value returned; a call that raises leaves no record; and the class-wide
    counter grows by the number of those records, so that from the class as
    loaded [amount_calculation] always equals the length of [results]. *)
Theorem calculator_counts_what_it_records
    (calls : list (Method * number * number)) (cls : Class) :
  (run py_add py_sub py_mul py_truediv calls cls).1
  = map (fun c => operator py_add py_sub py_mul py_truediv c.1.1 c.1.2 c.2)
      calls
  /\ results (run py_add py_sub py_mul py_truediv calls cls).2
     = results cls ++ records py_add py_sub py_mul py_truediv calls
  /\ amount_calculation (run py_add py_sub py_mul py_truediv calls cls).2
     = amount_calculation cls
       + Z.of_nat
           (List.length (records py_add py_sub py_mul py_truediv calls))
  /\ amount_calculation (run py_add py_sub py_mul py_truediv calls loaded).2
     = Z.of_nat
         (List.length
            (results (run py_add py_sub py_mul py_truediv calls loaded).2)).
Proof.
  destruct (run_outcome calls cls) as (Houts & Hres & Hcount).
  destruct (run_outcome calls loaded) as (_ & Hres0 & Hcount0).
  repeat split; [done..|]. by rewrite Hres0, Hcount0.
Qed.

(** *** [output_results] *)

Lemma rstrip_spaces s :
  PyStr.all_chars PyStr.is_space s = true -> PyStr.rstrip s = "".
Proof.
  induction s as [|c r IH]; simpl; [done|].
  intros [Hc Hr]%andb_prop. by rewrite (IH Hr), Hc.
Qed.

Lemma rstrip_app_spaces s t :
  PyStr.all_chars PyStr.is_space t = true ->
  PyStr.rstrip (s +:+ t) = PyStr.rstrip s.
Proof.
  intros Ht. induction s as [|c r IH].
  - change (PyStr.rstrip t = ""). by apply rstrip_spaces.
  - change (PyStr.rstrip (String c (r +:+ t)) = PyStr.rstrip (String c r)).
    simpl. by rewrite IH.
Qed.

Lemma last_char_app s t :
  t <> "" -> PyStr.last_char (s +:+ t) = PyStr.last_char t.
Proof.
  intros Ht. induction s as [|c r IH]; [done|].
  change (PyStr.last_char (String c (r +:+ t)) = PyStr.last_char t).
  destruct (r +:+ t) as [|c' r'] eqn:Hrt.
  - destruct r; [|discriminate]. by destruct t.
  - by rewrite <- IH.
Qed.

Lemma string_app_nil_r (s : string) : s +:+ "" = s.
Proof.
  induction s as [|c r IH]; [done|].
  change (String c (r +:+ "") = String c r). by rewrite IH.
Qed.

Lemma string_app_assoc (s t u : string) :
  (s +:+ t) +:+ u = s +:+ (t +:+ u).
Proof.
  induction s as [|c r IH]; [done|].
  change (String c ((r +:+ t) +:+ u) = String c (r +:+ (t +:+ u))).
  by rewrite IH.
Qed.

Lemma join_all_lines (lines : list string) :
  lines <> [] ->
  join_all (map (fun l => l +:+ String "010"%char "") lines)
  = PyStr.join "010"%char lines +:+ String "010"%char "".
Proof.
  induction lines as [|l [|l' rest] IH]; intros Hne; [done| |].
  - change ((l +:+ String "010"%char "") +:+ "" = l +:+ String "010"%char "").
    apply string_app_nil_r.
  - change (join_all (map (fun l => l +:+ String "010"%char "")
                        (l :: l' :: rest)))
      with ((l +:+ String "010"%char "")
            +:+ join_all (map (fun l => l +:+ String "010"%char "")
                            (l' :: rest))).
    rewrite IH by done.
    change (PyStr.join "010"%char (l :: l' :: rest))
      with (l +:+ String "010"%char (PyStr.join "010"%char (l' :: rest))).
    by rewrite !string_app_assoc.
Qed.

Lemma last_char_join sep (lines : list string) (x : string) :
  x <> "" ->
  PyStr.last_char (PyStr.join sep (lines ++ [x])) = PyStr.last_char x.
Proof.
  intros Hx. induction lines as [|l [|l' rest] IH]; [done| |].
  - change (PyStr.last_char (l +:+ String sep x) = PyStr.last_char x).
    rewrite last_char_app by done. by destruct x.
  - change (PyStr.last_char
              (l +:+ String sep (PyStr.join sep ((l' :: rest) ++ [x])))
            = PyStr.last_char x).
    rewrite last_char_app by done. rewrite <- IH.
    by destruct (PyStr.join sep ((l' :: rest) ++ [x])) eqn:Hj;
      [destruct rest; destruct l'; discriminate |].
Qed.

(** X18.  When the text of the last result, as [str] gives it, ends in a
    character that is not whitespace, [output_results] is what [__repr__]
    makes of the results, joined by newlines: one line per result, in
    order, and no newline at the end. *)
Theorem output_results_lines (cls : Class) (x : CalculatorResult)
    (c : ascii) :
  last (results cls) = Some x ->
  PyStr.last_char (py_str (last_result x)) = Some c ->
  PyStr.is_space c = false ->
  output_results py_str py_upper cls
  = PyStr.join "010"%char (map (__repr__ py_str py_upper) (results cls)).
Proof.
  intros Hlast Hc Hspace.
  apply last_Some in Hlast as [rs Hrs].
  unfold output_results.
  rewrite <- (map_map (__repr__ py_str py_upper)
                (fun l => l +:+ String "010"%char "")).
  rewrite join_all_lines by (rewrite Hrs, map_app; by destruct (map _ rs)).
  rewrite rstrip_app_spaces by done.
  apply rstrip_fixed. rewrite Hrs, map_app. simpl.
  assert (py_str (last_result x) <> "") as Hne
    by (intros Heq; by rewrite Heq in Hc).
  rewrite last_char_join.
  - unfold __repr__. rewrite !last_char_app by done.
    rewrite Hc. simpl. by rewrite Hspace.
  - unfold __repr__. intros Heq.
    apply (f_equal PyStr.last_char) in Heq.
    rewrite !last_char_app in Heq by done. by rewrite Hc in Heq.
Qed.

End CalculatorProperties.

(** ** The collector at concrete inputs *)

#[local] Existing Instance time_series.

(** *** The implementation of the sequence factories *)

(** [update] appends the current value to the time series. *)
Lemma time_series_update (t : TestSuiteChromosome)
    (var : SequenceOutputVariableFactory) :
  series (state_of (update t var)) = series (state_of var) ++ [get_value var t]
  /\ current (state_of (update t var)) = current (state_of var).
Proof. done. Qed.

(** [set_value] makes the value the current one of a direct factory, which
    the next [update] appends. *)
Lemma time_series_set_value (x : Value) (t : TestSuiteChromosome)
    (var : SequenceOutputVariableFactory) :
  isinstance_direct var = true ->
  series (state_of (set_value x var)) = series (state_of var)
  /\ series (state_of (update t (set_value x var)))
     = series (state_of var) ++ [x].
Proof. destruct var as [[] q]; done. Qed.

(** The series expands into one variable per position, named after the
    variable and the position. *)
Lemma time_series_expansion (var : SequenceOutputVariableFactory)
    (v : OutputVariable) :
  v ∈ get_output_variables var ->
  exists i, name v
            = RuntimeVariable.name (series_variable (state_of var))
              +:+ "_" +:+ pretty (S i).
Proof.
  unfold get_output_variables. simpl. unfold series_output_variables.
  intros (i & x & -> & _)%elem_of_lookup_imap. by exists i.
Qed.

Lemma evolves_series_variable (var var' : SequenceOutputVariableFactory) :
  evolves var var' ->
  series_variable (state_of var') = series_variable (state_of var).
Proof. induction 1; simpl; congruence. Qed.

Lemma well_named_same_setup (s s' : SearchStatistics) :
  well_named s -> same_setup s s' -> well_named s'.
Proof.
  unfold well_named. intros Hnamed (_ & _ & _ & _ & Hseq).
  induction Hseq as [|item item' l l' [Hk He] _ IH]; [done|].
  inversion Hnamed as [|? ? Hitem Hrest]; subst. constructor; [|by apply IH].
  by rewrite Hk, (evolves_series_variable _ _ He).
Qed.

Lemma run_well_named (cfg : Configuration) (now : Z) (w0 : World)
    (calls : list Call) :
  well_named (self (run calls (__init__ cfg now w0).2).2).
Proof.
  eapply well_named_same_setup; [|apply run_same_setup].
  rewrite init_world. unfold well_named. simpl. by repeat constructor.
Qed.

Lemma dict_get_elem_of {V} k (v : V) (d : list (string * V)) :
  Dict.get k d = Some v -> (k, v) ∈ d.
Proof.
  induction d as [|[k' v'] d IH]; simpl; [done|].
  destruct (String.eqb_spec k k') as [->|Hk].
  - intros [= ->]. by left.
  - intros Hget. right. by apply IH.
Qed.

(** On a constructed collector, whatever the calls made on it, a requested
    name that is directly set and also the name of a chromosome factory
    holds the directly-set variable in the mapping that
    [_get_output_variables] returns, unless the function has left with the
    empty mapping over a name that no source knows: no sequence expands to a
    variable of that name. *)
Lemma direct_value_in_returned_mapping (cfg0 cfg : Configuration) (now : Z)
    (w0 : World) (calls : list Call) (individual : TestSuiteChromosome)
    (skip_missing : bool) (n : string) (d : OutputVariable)
    (f : ChromosomeOutputVariableFactory) :
  let w := (run calls (__init__ cfg0 now w0).2).2 in
  n ∈ _get_output_variable_names cfg ->
  _output_variables (self w) !! n = Some d ->
  Dict.get n (_variable_factories (self w)) = Some f ->
  exists result w',
    _get_output_variables cfg individual skip_missing w = (Return result, w')
    /\ (result !! n = Some d
        \/ (result = ∅ /\ skip_missing = false
            /\ exists m,
                 m ∈ _get_output_variable_names cfg
                 /\ unresolvable (self w) m)).
Proof.
  intros w Hreq Hd Hf.
  destruct (get_output_variables_loop_direct individual skip_missing w n d
              (_get_output_variable_names cfg) Hd ∅ (or_intror Hreq))
    as (result & w' & Heq & Hres).
  exists result, w'. split; [exact Heq|].
  destruct Hres as [?|[?|(m & q & v & _ & _ & Hq & Hv & Hname)]];
    [by left | by right | exfalso].
  pose proof (run_registered cfg0 now w0 calls) as Hreg.
  pose proof (run_well_named cfg0 now w0 calls) as Hnamed.
  fold w in Hreg, Hnamed.
  apply time_series_expansion in Hv as [i Hi].
  assert (m ∈ Dict.keys (_sequence_output_variable_factories (self w)))
    as Hm by (apply dict_get_keys; by eauto).
  apply dict_get_elem_of in Hq.
  unfold well_named in Hnamed. rewrite Forall_forall in Hnamed.
  specialize (Hnamed _ Hq). simpl in Hnamed. rewrite Hnamed in Hi.
  destruct (registered_sequences _ Hreg) as (q1 & q2 & q3 & q4 & Hseq).
  destruct Hreg as [Hfact _].
  rewrite Hseq in Hm. rewrite Hfact in Hf. rewrite Hname in Hi. clear -Hm Hf Hi.
  simpl in Hf.
  repeat match type of Hf with
         | (if String.eqb ?a ?b then _ else _) = _ =>
             destruct (String.eqb_spec a b) as [->|?]
         end; try discriminate;
    simpl in Hm;
    repeat (apply elem_of_cons in Hm as [->|Hm]; [discriminate Hi|]);
    by apply elem_of_nil in Hm.
Qed.

(** C1, as stated, fails: [CoverageTimeline] is a registered sequence name,
    and setting it raises [AssertionError]; the value does not reach the
    accumulator, which stays as it was. *)
Lemma set_output_variable_coverage_timeline_raises :
  "CoverageTimeline"
    ∈ Dict.keys (_sequence_output_variable_factories
                   (self (constructed console_configuration 0)))
  /\ set_output_variable
       {| name := "CoverageTimeline"; value := VFloat (1 # 2) |}
       (constructed console_configuration 0)
     = (Raise AssertionError, constructed console_configuration 0).
Proof. split; [vm_compute; repeat constructor | vm_compute; reflexivity]. Qed.

Lemma set_output_variable_sequence_routing_witness :
  let w := constructed console_configuration 0 in
  let variable := {| name := "TotalExceptionsTimeline"; value := VInt 2 |} in
  registered (self w)
  /\ name variable ∈ Dict.keys (_sequence_output_variable_factories (self w))
  /\ exists var,
       Dict.get (name variable) (_sequence_output_variable_factories (self w))
         = Some var
       /\ ((name variable = "TotalExceptionsTimeline"
            /\ isinstance_direct var = true
            /\ exists w',
                set_output_variable variable w = (Return tt, w')
                /\ _sequence_output_variable_factories (self w')
                   = Dict.set (name variable)
                       (set_value (value variable) var)
                       (_sequence_output_variable_factories (self w))
                /\ Dict.get (name variable)
                     (_sequence_output_variable_factories (self w'))
                   = Some (set_value (value variable) var)
                /\ (forall k, k <> name variable ->
                      Dict.get k
                        (_sequence_output_variable_factories (self w'))
                      = Dict.get k
                          (_sequence_output_variable_factories (self w)))
                /\ _output_variables (self w') = _output_variables (self w)
                /\ _backend (self w') = _backend (self w)
                /\ _variable_factories (self w') = _variable_factories (self w)
                /\ _start_time (self w') = _start_time (self w)
                /\ _best_individual (self w') = _best_individual (self w)
                /\ log w' = log w
                /\ written w' = written w)
           \/ (name variable
                 ∈ ["CoverageTimeline"; "SizeTimeline"; "LengthTimeline"]
               /\ isinstance_direct var = false
               /\ set_output_variable variable w = (Raise AssertionError, w))).
Proof.
  intros w variable.
  assert (registered (self w)) as Hreg by by_evaluation.
  assert (name variable
            ∈ Dict.keys (_sequence_output_variable_factories (self w)))
    as Hkey by (vm_compute; repeat constructor).
  split; [exact Hreg|]. split; [exact Hkey|].
  exact (set_output_variable_sequence_routing w variable Hreg Hkey).
Defined.

Lemma write_statistics_failure_witness :
  let w := constructed console_configuration 0 in
  (_backend (self w) = None \/ _best_individual (self w) = None)
  /\ exists w',
       write_statistics console_configuration 7 w = (Return false, w')
       /\ written w' = written w.
Proof.
  intros w.
  assert (_backend (self w) = None \/ _best_individual (self w) = None)
    as Hfail by (right; vm_compute; reflexivity).
  split; [exact Hfail|].
  exact (write_statistics_failure console_configuration 7 w Hfail).
Defined.

(** A collector that has been sent one individual: [Coverage] is then both
    directly set and the name of a chromosome factory. *)
Lemma direct_value_has_priority_witness :
  let w :=
    (current_individual (TestSuite sample_individual)
       (constructed console_configuration 0)).2 in
  let d := {| name := "Coverage"; value := VFloat (3 # 4) |} in
  let cfg := console_configuration in
  let individual := sample_individual in
  let skip_missing := true in
  "Coverage" ∈ _get_output_variable_names cfg
  /\ _output_variables (self w) !! "Coverage" = Some d
  /\ Dict.get "Coverage" (_variable_factories (self w))
     = Some _ChromosomeCoverageOutputVariableFactory
  /\ (forall variables,
        _get_output_variables_body individual skip_missing variables
          "Coverage" w
        = (Return (Next (<["Coverage" := d]> variables)), w))
  /\ (forall variables m,
        resolving_source (self w) m
        = List.find (knows (self w) m)
            [DirectlySet; ChromosomeFactory; SequenceFactory]
        /\ _get_output_variables_body individual skip_missing variables m w
           = match resolving_source (self w) m with
             | Some src =>
                 (Return
                    (Next (store_all (contribution (self w) individual m src)
                             variables)),
                  w)
             | None =>
                 if skip_missing then
                   (Return
                      (Next (<[m := {| name := m; value := VStr "" |}]>
                               variables)),
                    w)
                 else
                   (Return (Leave ∅),
                    logging w ERROR
                      ("No obtained value for output variable " +:+ m))
             end)
  /\ resolving_source (self w) "Coverage" = Some DirectlySet
  /\ resolved_entries (self w) individual "Coverage"
     = [("Coverage", d)]
  /\ _get_output_variables cfg individual skip_missing w
     = match (if skip_missing then None
              else first_unknown (self w) (_get_output_variable_names cfg))
       with
       | Some m =>
           (Return ∅,
            logging w ERROR ("No obtained value for output variable " +:+ m))
       | None =>
           (Return
              (resolve_requested (self w) individual
                 (_get_output_variable_names cfg) ∅),
            w)
       end
  /\ exists result w',
       _get_output_variables cfg individual skip_missing w
       = (Return result, w')
       /\ (result !! "Coverage" = Some d
           \/ (result = ∅ /\ skip_missing = false
               /\ exists m,
                    m ∈ _get_output_variable_names cfg
                    /\ unresolvable (self w) m)
           \/ (exists m q var,
                 m ∈ _get_output_variable_names cfg
                 /\ resolving_source (self w) m = Some SequenceFactory
                 /\ Dict.get m (_sequence_output_variable_factories (self w))
                    = Some q
                 /\ var ∈ get_output_variables q
                 /\ name var = "Coverage")).
Proof.
  intros w d cfg individual skip_missing.
  assert ("Coverage" ∈ _get_output_variable_names cfg) as Hreq
    by (vm_compute; repeat constructor).
  assert (_output_variables (self w) !! "Coverage" = Some d) as Hd
    by (vm_compute; reflexivity).
  assert (Dict.get "Coverage" (_variable_factories (self w))
          = Some _ChromosomeCoverageOutputVariableFactory) as Hf
    by (vm_compute; reflexivity).
  split; [exact Hreq|]. split; [exact Hd|]. split; [exact Hf|].
  exact (direct_value_has_priority cfg individual skip_missing w "Coverage" d
           _ChromosomeCoverageOutputVariableFactory Hreq Hd Hf).
Defined.

Lemma unresolvable_name_handling_witness :
  let w := constructed console_configuration 0 in
  let cfg := console_configuration in
  let individual := sample_individual in
  let n := "TARGET_CLASS" in
  n ∈ _get_output_variable_names cfg
  /\ unresolvable (self w) n
  /\ (forall variables,
        _get_output_variables_body individual true variables n w
        = (Return
             (Next (<[n := {| name := n; value := VStr "" |}]> variables)),
           w))
  /\ (forall variables rest,
        _get_output_variables_loop individual true (n :: rest) variables w
        = _get_output_variables_loop individual true rest
            (<[n := {| name := n; value := VStr "" |}]> variables) w)
  /\ (exists result,
        _get_output_variables cfg individual true w = (Return result, w)
        /\ is_Some (result !! n))
  /\ (forall variables,
        _get_output_variables_body individual false variables n w
        = (Return (Leave ∅),
           logging w ERROR ("No obtained value for output variable " +:+ n)))
  /\ (exists m,
        m ∈ _get_output_variable_names cfg
        /\ unresolvable (self w) m
        /\ _get_output_variables cfg individual false w
           = (Return ∅,
              logging w ERROR
                ("No obtained value for output variable " +:+ m))).
Proof.
  intros w cfg individual n.
  assert (n ∈ _get_output_variable_names cfg) as Hreq
    by (vm_compute; repeat constructor).
  assert (unresolvable (self w) n) as Hun
    by by_evaluation.
  split; [exact Hreq|]. split; [exact Hun|].
  exact (unresolvable_name_handling cfg individual w n Hreq Hun).
Defined.

(** A collector with a best individual, which no method of the class
    produces: the attribute is assigned from outside. *)
Lemma write_statistics_succeeds_with_unresolved_name_witness :
  let w0 := constructed console_configuration 0 in
  let w :=
    {| self := with_best_individual (self w0) (Some sample_individual);
       log := log w0;
       written := written w0 |} in
  let cfg := console_configuration in
  let n := "TARGET_CLASS" in
  _backend (self w) = Some ConsoleStatisticsBackend
  /\ _best_individual (self w) = Some sample_individual
  /\ n ∈ _get_output_variable_names cfg
  /\ n <> "total_time"
  /\ unresolvable (self w) n
  /\ exists w' m,
       write_statistics cfg 7 w = (Return true, w')
       /\ written w' = written w ++ [∅]
       /\ log w' = log w ++
            [{| level := INFO; message := "Writing statistics" |};
             {| level := ERROR;
                message := "No obtained value for output variable " +:+ m |}]
       /\ m ∈ _get_output_variable_names cfg.
Proof.
  intros w0 w cfg n.
  assert (_backend (self w) = Some ConsoleStatisticsBackend) as Hb
    by (vm_compute; reflexivity).
  assert (_best_individual (self w) = Some sample_individual) as Hi
    by (vm_compute; reflexivity).
  assert (n ∈ _get_output_variable_names cfg) as Hreq
    by (vm_compute; repeat constructor).
  assert (n <> "total_time") as Hne by discriminate.
  assert (unresolvable (self w) n) as Hun
    by by_evaluation.
  split; [exact Hb|]. split; [exact Hi|]. split; [exact Hreq|].
  split; [exact Hne|]. split; [exact Hun|].
  exact (write_statistics_succeeds_with_unresolved_name cfg 7 w
           ConsoleStatisticsBackend sample_individual n Hb Hi Hreq Hne Hun).
Defined.

(** C9, as stated, fails: without a backend, an argument that is not a test
    suite chromosome is ignored without a warning in the log, and a test
    suite chromosome is ignored as well: no scalar is stored and no sequence
    factory is updated. *)
Lemma current_individual_without_backend_is_silent :
  _backend (self (constructed no_backend_configuration 0)) = None
  /\ log (constructed no_backend_configuration 0) = []
  /\ _output_variables (self (constructed no_backend_configuration 0))
       !! "Coverage" = None
  /\ current_individual OtherChromosome
       (constructed no_backend_configuration 0)
     = (Return tt, constructed no_backend_configuration 0)
  /\ current_individual (TestSuite sample_individual)
       (constructed no_backend_configuration 0)
     = (Return tt, constructed no_backend_configuration 0).
Proof. by_evaluation. Qed.

Lemma current_individual_effect_witness :
  let w := constructed console_configuration 0 in
  let t := sample_individual in
  registered (self w)
  /\ current_individual (TestSuite t) w =
       (Return tt,
        {| self :=
             with_sequence_output_variable_factories
               (with_output_variables (self w)
                  (<["Fitness" :=
                       {| name := "Fitness"; value := VFloat (fitness t) |}]>
                     (<["Coverage" :=
                          {| name := "Coverage";
                             value := VFloat (coverage t) |}]>
                        (<["Size" :=
                             {| name := "Size"; value := VInt (size t) |}]>
                           (<["Length" :=
                                {| name := "Length";
                                   value :=
                                     VInt (total_length_of_test_cases t) |}]>
                              (_output_variables (self w)))))))
               (map (fun item => (item.1, update t item.2))
                  (_sequence_output_variable_factories (self w)));
           log := log w ++
             [{| level := DEBUG; message := "Received individual" |}];
           written := written w |}).
Proof.
  intros w t.
  assert (registered (self w)) as Hreg by by_evaluation.
  split; [exact Hreg|].
  exact (current_individual_effect w (TestSuite t) Hreg).
Defined.

(** *** A run of three generations *)

Example three_generations_timeline :
  let w :=
    (run [call_current_individual (TestSuite sample_individual);
          call_current_individual OtherChromosome;
          call_current_individual (TestSuite sample_individual);
          call_set_output_variable
            {| name := "TotalExceptionsTimeline"; value := VInt 5 |};
          call_current_individual (TestSuite sample_individual)]
       (constructed console_configuration 0)).2 in
  (get_output_variables <$>
     Dict.get "CoverageTimeline"
       (_sequence_output_variable_factories (self w)))
  = Some [ {| name := "CoverageTimeline_1"; value := VFloat (3 # 4) |};
           {| name := "CoverageTimeline_2"; value := VFloat (3 # 4) |};
           {| name := "CoverageTimeline_3"; value := VFloat (3 # 4) |} ]
  /\ (get_output_variables <$>
        Dict.get "TotalExceptionsTimeline"
          (_sequence_output_variable_factories (self w)))
     = Some [ {| name := "TotalExceptionsTimeline_1"; value := VInt 0 |};
              {| name := "TotalExceptionsTimeline_2"; value := VInt 0 |};
              {| name := "TotalExceptionsTimeline_3"; value := VInt 5 |} ]
  /\ _output_variables (self w) !! "Coverage"
     = Some {| name := "Coverage"; value := VFloat (3 # 4) |}
  /\ _best_individual (self w) = None
  /\ (write_statistics console_configuration 9 w).1 = Return false.
Proof. intros w. by_evaluation. Qed.

(** *** Further properties at concrete inputs *)

Lemma get_output_variables_keys_are_requested_witness :
  let w := constructed console_configuration 0 in
  let cfg := console_configuration in
  let individual := sample_individual in
  let result : gmap string OutputVariable :=
    <["Coverage" := {| name := "Coverage"; value := VFloat (3 # 4) |}]>
      (<["criterion" := {| name := "criterion"; value := VStr "" |}]>
         (<["TARGET_CLASS" := {| name := "TARGET_CLASS"; value := VStr "" |}]>
            ∅)) in
  _get_output_variables cfg individual true w = (Return result, w)
  /\ is_Some (result !! "criterion")
  /\ ("criterion" ∈ _get_output_variable_names cfg
      \/ exists m q var,
           m ∈ _get_output_variable_names cfg
           /\ Dict.get m (_sequence_output_variable_factories (self w))
              = Some q
           /\ var ∈ get_output_variables q
           /\ name var = "criterion").
Proof.
  intros w cfg individual result.
  assert (_get_output_variables cfg individual true w = (Return result, w))
    as Heq by by_evaluation.
  assert (is_Some (result !! "criterion")) as Hk
    by (eexists; vm_compute; reflexivity).
  split; [exact Heq|]. split; [exact Hk|].
  exact (get_output_variables_keys_are_requested cfg individual true w w
           result "criterion" Heq Hk).
Defined.

Lemma get_output_variables_covers_requested_names_witness :
  let w := constructed console_configuration 0 in
  let cfg := console_configuration in
  let individual := sample_individual in
  let result : gmap string OutputVariable :=
    <["Coverage" := {| name := "Coverage"; value := VFloat (3 # 4) |}]>
      (<["criterion" := {| name := "criterion"; value := VStr "" |}]>
         (<["TARGET_CLASS" := {| name := "TARGET_CLASS"; value := VStr "" |}]>
            ∅)) in
  _get_output_variables cfg individual true w = (Return result, w)
  /\ "Coverage" ∈ _get_output_variable_names cfg
  /\ match resolving_source (self w) "Coverage" with
     | Some SequenceFactory =>
         forall q var,
           Dict.get "Coverage" (_sequence_output_variable_factories (self w))
           = Some q ->
           var ∈ get_output_variables q ->
           is_Some (result !! name var)
     | _ => is_Some (result !! "Coverage")
     end.
Proof.
  intros w cfg individual result.
  assert (_get_output_variables cfg individual true w = (Return result, w))
    as Heq by by_evaluation.
  assert ("Coverage" ∈ _get_output_variable_names cfg) as Hn
    by (vm_compute; repeat constructor).
  split; [exact Heq|]. split; [exact Hn|].
  exact (get_output_variables_covers_requested_names cfg individual true w
           result "Coverage" Heq Hn).
Defined.

Lemma scalars_replace_and_sequences_accumulate_witness :
  let w := constructed console_configuration 0 in
  let t1 := sample_individual in
  let t2 := {| total_length_of_test_cases := 20; size := 4;
               coverage := 1; fitness := 0 |} in
  registered (self w)
  /\ _backend (self w) = Some ConsoleStatisticsBackend
  /\ _output_variables
       (self (current_individual (TestSuite t2)
                (current_individual (TestSuite t1) w).2).2)
     = _output_variables (self (current_individual (TestSuite t2) w).2)
  /\ _sequence_output_variable_factories
       (self (current_individual (TestSuite t2)
                (current_individual (TestSuite t1) w).2).2)
     = map (fun item => (item.1, update t2 (update t1 item.2)))
         (_sequence_output_variable_factories (self w)).
Proof.
  intros w t1 t2.
  assert (registered (self w)) as Hreg by by_evaluation.
  assert (_backend (self w) = Some ConsoleStatisticsBackend) as Hb
    by by_evaluation.
  split; [exact Hreg|]. split; [exact Hb|].
  exact (scalars_replace_and_sequences_accumulate w t1 t2
           ConsoleStatisticsBackend Hreg Hb).
Defined.

Lemma scalar_and_timeline_agree_witness :
  let w := constructed console_configuration 0 in
  let t := sample_individual in
  registered (self w)
  /\ _backend (self w) = Some ConsoleStatisticsBackend
  /\ Forall (fun pair =>
               exists x var,
                 _output_variables
                   (self (current_individual (TestSuite t) w).2) !! pair.1
                 = Some {| name := pair.1; value := x |}
                 /\ Dict.get pair.2
                      (_sequence_output_variable_factories (self w))
                    = Some var
                 /\ Dict.get pair.2
                      (_sequence_output_variable_factories
                         (self (current_individual (TestSuite t) w).2))
                    = Some {| class_of := class_of var;
                              state_of := sequence_update x (state_of var) |})
       [("Length", "LengthTimeline"); ("Size", "SizeTimeline");
        ("Coverage", "CoverageTimeline")].
Proof.
  intros w t.
  assert (registered (self w)) as Hreg by by_evaluation.
  assert (_backend (self w) = Some ConsoleStatisticsBackend) as Hb
    by by_evaluation.
  split; [exact Hreg|]. split; [exact Hb|].
  exact (scalar_and_timeline_agree w t ConsoleStatisticsBackend Hreg Hb).
Defined.

Lemma reported_individual_shadows_the_factories_witness :
  let w := constructed console_configuration 0 in
  let t := sample_individual in
  let individual := {| total_length_of_test_cases := 20; size := 4;
                       coverage := 1; fitness := 0 |} in
  let f := _ChromosomeCoverageOutputVariableFactory in
  registered (self w)
  /\ _backend (self w) = Some ConsoleStatisticsBackend
  /\ Dict.get "Coverage" (_variable_factories (self w)) = Some f
  /\ _get_output_variables_body individual false ∅ "Coverage"
       (current_individual (TestSuite t) w).2
     = (Return (Next (<["Coverage" := get_variable f t]> ∅)),
        (current_individual (TestSuite t) w).2).
Proof.
  intros w t individual f.
  assert (registered (self w)) as Hreg by by_evaluation.
  assert (_backend (self w) = Some ConsoleStatisticsBackend) as Hb
    by by_evaluation.
  assert (Dict.get "Coverage" (_variable_factories (self w)) = Some f) as Hf
    by by_evaluation.
  split; [exact Hreg|]. split; [exact Hb|]. split; [exact Hf|].
  exact (reported_individual_shadows_the_factories w t individual
           ConsoleStatisticsBackend false ∅ "Coverage" f Hreg Hb Hf).
Defined.

Lemma set_output_variable_round_trip_witness :
  let w := constructed console_configuration 0 in
  let variable := {| name := "TARGET_CLASS"; value := VStr "calculator" |} in
  name variable ∉ Dict.keys (_sequence_output_variable_factories (self w))
  /\ exists w',
       set_output_variable variable w = (Return tt, w')
       /\ output_variables_property w'
          = (Return (<[name variable := variable]>
                       (_output_variables (self w))),
             w')
       /\ (forall individual skip_missing variables,
             _get_output_variables_body individual skip_missing variables
               (name variable) w'
             = (Return (Next (<[name variable := variable]> variables)), w'))
       /\ _sequence_output_variable_factories (self w')
          = _sequence_output_variable_factories (self w)
       /\ log w' = log w
       /\ written w' = written w.
Proof.
  intros w variable.
  assert (name variable
            ∉ Dict.keys (_sequence_output_variable_factories (self w)))
    as Hkey by (apply (bool_decide_unpack _); vm_compute; exact I).
  split; [exact Hkey|].
  exact (set_output_variable_round_trip variable w Hkey).
Defined.

(** A collector with a best individual, assigned from outside, on which the
    two other default names have been set. *)
Lemma write_statistics_success_witness :
  let w0 :=
    (run [call_set_output_variable
            {| name := "TARGET_CLASS"; value := VStr "calculator" |};
          call_set_output_variable
            {| name := "criterion"; value := VStr "BRANCH" |}]
       (constructed console_configuration 0)).2 in
  let w :=
    {| self := with_best_individual (self w0) (Some sample_individual);
       log := log w0;
       written := written w0 |} in
  let cfg := console_configuration in
  _backend (self w) = Some ConsoleStatisticsBackend
  /\ _best_individual (self w) = Some sample_individual
  /\ (forall n, n ∈ _get_output_variable_names cfg ->
                n = "total_time" \/ ~ unresolvable (self w) n)
  /\ exists result w',
       write_statistics cfg 7 w = (Return true, w')
       /\ written w' = written w ++ [result]
       /\ log w' = log w ++
            [{| level := INFO; message := "Writing statistics" |}]
       /\ forall n,
            n ∈ _get_output_variable_names cfg ->
            n = "total_time"
            \/ is_Some (_output_variables (self w) !! n)
            \/ is_Some (Dict.get n (_variable_factories (self w))) ->
            is_Some (result !! n).
Proof.
  intros w0 w cfg.
  assert (_backend (self w) = Some ConsoleStatisticsBackend) as Hb
    by by_evaluation.
  assert (_best_individual (self w) = Some sample_individual) as Hi
    by by_evaluation.
  assert (forall n, n ∈ _get_output_variable_names cfg ->
                    n = "total_time" \/ ~ unresolvable (self w) n) as Hall.
  { intros n Hn. right. intros (Hd & Hf & _).
    vm_compute in Hn.
    repeat (apply elem_of_cons in Hn as [->|Hn];
            [vm_compute in Hd; vm_compute in Hf; discriminate|]).
    by apply elem_of_nil in Hn. }
  split; [exact Hb|]. split; [exact Hi|]. split; [exact Hall|].
  exact (write_statistics_success cfg 7 w ConsoleStatisticsBackend
           sample_individual Hb Hi Hall).
Defined.

Lemma inert_without_backend_witness :
  let w := constructed no_backend_configuration 0 in
  let calls :=
    [call_current_individual (TestSuite sample_individual);
     call_write_statistics console_configuration 5;
     call_current_individual OtherChromosome] in
  _backend (self w) = None
  /\ forallb reports_or_writes calls = true
  /\ self (run calls w).2 = self w
  /\ written (run calls w).2 = written w
  /\ Forall2 (fun c r =>
                match c with
                | call_write_statistics _ _ => r = Return (Some false)
                | _ => r = Return None
                end)
       calls (run calls w).1.
Proof.
  intros w calls.
  assert (_backend (self w) = None) as Hb by by_evaluation.
  assert (forallb reports_or_writes calls = true) as Hcalls by by_evaluation.
  split; [exact Hb|]. split; [exact Hcalls|].
  exact (inert_without_backend w calls Hb Hcalls).
Defined.

Lemma output_variable_names_round_trip_witness :
  let names := ["Coverage"; "Size"; "CoverageTimeline"] in
  let cfg :=
    {| seed := VInt 0; statistics_backend := CSV;
       output_variables := "Coverage,Size,CoverageTimeline" |} in
  Forall plain_name names
  /\ PyStr.join ","%char names <> ""
  /\ output_variables cfg = PyStr.join ","%char names
  /\ _get_output_variable_names cfg = names.
Proof.
  intros names cfg.
  assert (Forall plain_name names) as Hplain
    by (repeat constructor; vm_compute; reflexivity).
  assert (PyStr.join ","%char names <> "") as Hne by (vm_compute; discriminate).
  assert (output_variables cfg = PyStr.join ","%char names) as Hcfg
    by by_evaluation.
  split; [exact Hplain|]. split; [exact Hne|]. split; [exact Hcfg|].
  exact (output_variable_names_round_trip cfg names Hplain Hne Hcfg).
Defined.

(** Two results with integer values, whose text is their decimal
    numeral. *)
Lemma output_results_lines_witness :
  let py_str := fun z : Z => pretty z in
  let x := {| Calculator.last_op := "sub"; Calculator.last_result := (-1)%Z |} in
  let cls :=
    {| Calculator.amount_calculation := 2;
       Calculator.results :=
         [{| Calculator.last_op := "add"; Calculator.last_result := 3%Z |};
          x] |} in
  last (Calculator.results cls) = Some x
  /\ PyStr.last_char (py_str (Calculator.last_result x)) = Some "1"%char
  /\ PyStr.is_space "1"%char = false
  /\ Calculator.output_results py_str ascii_upper cls
     = PyStr.join "010"%char
         (map (Calculator.__repr__ py_str ascii_upper)
            (Calculator.results cls)).
Proof.
  intros py_str x cls.
  assert (last (Calculator.results cls) = Some x) as Hlast by by_evaluation.
  assert (PyStr.last_char (py_str (Calculator.last_result x))
          = Some "1"%char) as Hc by by_evaluation.
  assert (PyStr.is_space "1"%char = false) as Hspace by by_evaluation.
  split; [exact Hlast|]. split; [exact Hc|]. split; [exact Hspace|].
  exact (output_results_lines py_str ascii_upper cls x "1"%char
           Hlast Hc Hspace).
Defined.

Example output_results_example :
  Calculator.output_results (fun z : Z => pretty z) ascii_upper
    {| Calculator.amount_calculation := 2;
       Calculator.results :=
         [{| Calculator.last_op := "add"; Calculator.last_result := 3%Z |};
          {| Calculator.last_op := "mult"; Calculator.last_result := (-6)%Z |}]
    |}
  = ("ADD: 3" +:+ String "010"%char "MULT: -6").
Proof. vm_compute. reflexivity. Qed.
